(** * RPI_WateringController: the control core, the plant and pump
      simulation, the calibration engine and the weather cache.

    The Python sources (App.py, Plant.py, Optimisation.py, Weather.py) are
    embedded as functions over an explicit world state.

    Conventions of the embedding.
    - Python numbers (ints and floats) are exact rationals [Q]; comparisons
      are the boolean ones of [QArith].  Rounding of binary floats is not
      modelled.
    - A coroutine is a computation in the monad [M] below: a function from
      the world to a result that either returns, raises a Python exception,
      or is still running when the fuel of a loop is used up.
    - [log] only prints, so it does not appear in the model.
    - [asyncio.sleep d] advances the wall clock by [d] and lets the
      background threads of Plant.py act on the plant; what they do during
      a sleep is the section variable [elapse]. *)

From Stdlib Require Import QArith Qround Qabs ZArith List Ascii String Bool Lia.
Import ListNotations.
Open Scope Q_scope.

(** ** Numbers *)

(** Python's [<] on numbers. *)
Definition Qlt_bool (x y : Q) : bool := negb (Qle_bool y x).

(** ** Plant.py *)

Module PlantModel.

(** [class Pump]: the two flags; the back reference [self.plant] is the
    enclosing [Plant] record. *)
Record Pump : Type := mkPump {
  is_on : bool;
  cancel_requested : bool
}.

(** [class Plant]. *)
Record Plant : Type := mkPlant {
  soil_moisture_level : Q;
  pump : Pump;
  running : bool;
  moisture_depletion_rate : Q
}.

(** [Plant.__init__]. *)
Definition Plant_init (initial_soil_moisture : Q) : Plant :=
  {| soil_moisture_level := initial_soil_moisture;
     pump := {| is_on := false; cancel_requested := false |};
     running := true;
     moisture_depletion_rate := 1 # 10 |}.

Definition get_soil_moisture (p : Plant) : Q := soil_moisture_level p.

Definition set_level (l : Q) (p : Plant) : Plant :=
  {| soil_moisture_level := l;
     pump := pump p;
     running := running p;
     moisture_depletion_rate := moisture_depletion_rate p |}.

Definition set_pump (u : Pump) (p : Plant) : Plant :=
  {| soil_moisture_level := soil_moisture_level p;
     pump := u;
     running := running p;
     moisture_depletion_rate := moisture_depletion_rate p |}.

(** One iteration of the body of [Plant.decrease_soil_moisture] (after its
    [time.sleep(2)]). *)
Definition decrease_soil_moisture_tick (p : Plant) : Plant :=
  let l := soil_moisture_level p - moisture_depletion_rate p in
  set_level (if Qlt_bool l 0 then 0 else l) p.

(** [Pump.turn_on]: sets the flags; the thread it starts acts through the
    schedule of the sleeps that follow. *)
Definition turn_on (p : Plant) : Plant :=
  set_pump {| is_on := true; cancel_requested := false |} p.

(** [Pump.turn_off]. *)
Definition turn_off (p : Plant) : Plant :=
  set_pump {| is_on := false; cancel_requested := cancel_requested (pump p) |} p.

(** [Pump.add_water]. *)
Definition add_water (p : Plant) : Plant :=
  if is_on (pump p) then
    let l := soil_moisture_level p + (1 # 2) in
    set_level (if Qlt_bool 1 l then 1 else l) p
  else p.

(** [Pump.cancel]. *)
Definition cancel (p : Plant) : Plant :=
  if is_on (pump p) then
    set_pump {| is_on := is_on (pump p); cancel_requested := true |} p
  else p.

(** One iteration of the [while] of [Pump._run_pump], entered with the loop
    condition true: the cancellation check, the two second wait, the
    increment. *)
Definition run_pump_round (p : Plant) : Plant :=
  if is_on (pump p) then
    if cancel_requested (pump p) then
      set_pump {| is_on := false; cancel_requested := true |} p
    else add_water p
  else p.

(** A schedule of the pump thread, used for concrete runs: a pump that is on
    when a sleep of [d] seconds starts performs the rounds that start within
    [d] seconds (one every two seconds) and then reaches [turn_off]. *)
Definition pump_thread_schedule (d : Q) (p : Plant) : Plant :=
  if is_on (pump p) then
    turn_off (Nat.iter (Z.to_nat (Qceiling (d / 2))) run_pump_round p)
  else p.

End PlantModel.
Export PlantModel.

(** ** The world: the [System] object, its collaborators and the clock *)

(** The exceptions the modelled code can raise; all are subclasses of
    Python's [Exception]. *)
Inductive exn : Type :=
| TypeError
| AttributeError
| ZeroDivisionError
| ValueError.

(** The attributes [fetch_settings] loads and the decision logic reads. *)
Record Settings : Type := mkSettings {
  check_rate : Q;
  operating_settings_desired_moisture_level : Q;
  operating_settings_water_threshold : Q;
  operating_hours_mode : string;
  operating_hours_start : string;
  operating_hours_end : string;
  weather_detection_enabled : bool;
  weather_detection_mode : string;
  weather_detection_postpone_percentage : Q;
  weather_detection_postpone_mm : Q;
  danger_mode_enabled : bool;
  danger_mode_level : Q;
  danger_mode_bypass_enabled : bool;
  danger_mode_bypass_water_percentage : Q;
  desired_soil_moisture : Q;
  water_cycle_length : Q
}.

(** The defaults of [System.__init__]. *)
Definition default_settings : Settings :=
  {| check_rate := 60000;
     operating_settings_desired_moisture_level := 100;
     operating_settings_water_threshold := 20;
     operating_hours_mode := "auto";
     operating_hours_start := "06:00";
     operating_hours_end := "18:00";
     weather_detection_enabled := true;
     weather_detection_mode := "AND";
     weather_detection_postpone_percentage := 35;
     weather_detection_postpone_mm := 5;
     danger_mode_enabled := true;
     danger_mode_level := 10;
     danger_mode_bypass_enabled := true;
     danger_mode_bypass_water_percentage := 40;
     desired_soil_moisture := 100;
     water_cycle_length := 5 |}.

(** [self.postponedWater]; [None] is Python's [None]. *)
Record Postponement : Type := mkPostponement {
  postponed : bool;
  postponedAt : option Q;
  postponedBy : option string
}.

Definition not_postponed : Postponement :=
  {| postponed := false; postponedAt := None; postponedBy := None |}.

(** The cached record of the [weatherdata] table. *)
Record WeatherData : Type := mkWeatherData {
  mmOfRainfall : Q;
  rainfallProbability : Q;
  sunrise : Q;
  sunset : Q;
  createdAt : Q
}.

(** The persistent store: the [system_enabled] column of the settings row
    ([None]: no row), the [water_per_percent] column of the optimisation row
    and the weather cache. *)
Record Database : Type := mkDatabase {
  settings_system_enabled : option bool;
  optimisation_water_per_percent : option Q;
  weatherdata : option WeatherData
}.

(** What the forecast service answers: [None] stands for a reply whose
    status is not 200. *)
Record Upstream : Type := mkUpstream {
  rainfall_reply : option (Q * Q);
  sunrisesunset_reply : option (Q * Q)
}.

(** The world.  [enabled] is [None] while the attribute [self.enabled] has
    never been assigned: [__init__] does not create it.  [plant] is [None]
    until [initialize] creates the plant.  [clock] is the wall clock, in
    seconds. *)
Record World : Type := mkWorld {
  cfg : Settings;
  system_enabled : bool;
  enabled : option bool;
  cancelRequested : bool;
  status : string;
  plant : option Plant;
  postponedWater : Postponement;
  optimisation_data : list Q;
  optimisation_data_collected : Z;
  db : Database;
  upstream : Upstream;
  clock : Q
}.

Definition set_system_enabled (b : bool) (w : World) : World :=
  mkWorld (cfg w) b (enabled w) (cancelRequested w) (status w) (plant w)
    (postponedWater w) (optimisation_data w) (optimisation_data_collected w)
    (db w) (upstream w) (clock w).

Definition set_enabled (b : option bool) (w : World) : World :=
  mkWorld (cfg w) (system_enabled w) b (cancelRequested w) (status w) (plant w)
    (postponedWater w) (optimisation_data w) (optimisation_data_collected w)
    (db w) (upstream w) (clock w).

Definition set_status (s : string) (w : World) : World :=
  mkWorld (cfg w) (system_enabled w) (enabled w) (cancelRequested w) s (plant w)
    (postponedWater w) (optimisation_data w) (optimisation_data_collected w)
    (db w) (upstream w) (clock w).

Definition set_plant (p : option Plant) (w : World) : World :=
  mkWorld (cfg w) (system_enabled w) (enabled w) (cancelRequested w) (status w) p
    (postponedWater w) (optimisation_data w) (optimisation_data_collected w)
    (db w) (upstream w) (clock w).

Definition set_postponedWater (r : Postponement) (w : World) : World :=
  mkWorld (cfg w) (system_enabled w) (enabled w) (cancelRequested w) (status w)
    (plant w) r (optimisation_data w) (optimisation_data_collected w)
    (db w) (upstream w) (clock w).

Definition set_optimisation_data (l : list Q) (w : World) : World :=
  mkWorld (cfg w) (system_enabled w) (enabled w) (cancelRequested w) (status w)
    (plant w) (postponedWater w) l (optimisation_data_collected w)
    (db w) (upstream w) (clock w).

Definition set_optimisation_data_collected (n : Z) (w : World) : World :=
  mkWorld (cfg w) (system_enabled w) (enabled w) (cancelRequested w) (status w)
    (plant w) (postponedWater w) (optimisation_data w) n
    (db w) (upstream w) (clock w).

Definition set_db (d : Database) (w : World) : World :=
  mkWorld (cfg w) (system_enabled w) (enabled w) (cancelRequested w) (status w)
    (plant w) (postponedWater w) (optimisation_data w)
    (optimisation_data_collected w) d (upstream w) (clock w).

Definition set_clock (t : Q) (w : World) : World :=
  mkWorld (cfg w) (system_enabled w) (enabled w) (cancelRequested w) (status w)
    (plant w) (postponedWater w) (optimisation_data w)
    (optimisation_data_collected w) (db w) (upstream w) t.

Definition set_cfg (c : Settings) (w : World) : World :=
  mkWorld c (system_enabled w) (enabled w) (cancelRequested w) (status w) (plant w)
    (postponedWater w) (optimisation_data w) (optimisation_data_collected w)
    (db w) (upstream w) (clock w).

(** The world [System.__init__] leaves, over a given store and service.
    [status] is "INIT" and no plant exists yet. *)
Definition System_init (d : Database) (u : Upstream) (now : Q) : World :=
  {| cfg := default_settings;
     system_enabled := false;
     enabled := None;
     cancelRequested := false;
     status := "INIT";
     plant := None;
     postponedWater := not_postponed;
     optimisation_data := [];
     optimisation_data_collected := 0%Z;
     db := d;
     upstream := u;
     clock := now |}.

(** ** The monad of coroutines *)

(** The outcome of running a coroutine: it returns a value, raises an
    exception, or is still inside a loop when the fuel is used up.  The first
    two carry the world they leave. *)
Inductive result (A : Type) : Type :=
| Returns (a : A) (w : World)
| Raises (e : exn) (w : World)
| Pending.
Arguments Returns {A} a w.
Arguments Raises {A} e w.
Arguments Pending {A}.

Definition M (A : Type) : Type := World -> result A.

Definition ret {A : Type} (a : A) : M A := fun w => Returns a w.

Definition bind {A B : Type} (m : M A) (k : A -> M B) : M B :=
  fun w =>
    match m w with
    | Returns a w' => k a w'
    | Raises e w' => Raises e w'
    | Pending => Pending
    end.

Definition raise {A : Type} (e : exn) : M A := fun w => Raises e w.

(** [try: body except Exception as e: handler]. *)
Definition try_except {A : Type} (body : M A) (handler : exn -> M A) : M A :=
  fun w =>
    match body w with
    | Raises e w' => handler e w'
    | r => r
    end.

Definition get {A : Type} (f : World -> A) : M A := fun w => Returns (f w) w.

Definition modify (f : World -> World) : M unit := fun w => Returns tt (f w).

Declare Scope py_scope.
Delimit Scope py_scope with py.
Notation "x <- m ;; k" := (bind m (fun x => k))
  (at level 100, m at next level, right associativity) : py_scope.
Notation "m ;;; k" := (bind m (fun _ => k))
  (at level 100, right associativity) : py_scope.
Open Scope py_scope.

(** The world an outcome leaves, if any. *)
Definition final_world {A : Type} (r : result A) : option World :=
  match r with
  | Returns _ w => Some w
  | Raises _ w => Some w
  | Pending => None
  end.

(** Python's [x / y] on numbers. *)
Definition py_div (x y : Q) : M Q :=
  if Qeq_bool y 0 then raise ZeroDivisionError else ret (x / y).

(** [self.plant.get_soil_moisture()]: an attribute access on [None] raises
    [AttributeError]. *)
Definition read_soil_moisture : M Q :=
  fun w =>
    match plant w with
    | Some p => Returns (get_soil_moisture p) w
    | None => Raises AttributeError w
    end.

(** [self.system.add_log_entry(...)]: class [System] defines no method of
    that name, so the attribute lookup raises. *)
Definition add_log_entry : M unit := raise AttributeError.

(** A Python object as far as tuple unpacking can tell: a pair, [None], or
    the coroutine object that calling an [async def] function returns. *)
Inductive pyobj (A : Type) : Type :=
| PyTuple2 (a b : A)
| PyNone
| PyCoroutine.
Arguments PyTuple2 {A} a b.
Arguments PyNone {A}.
Arguments PyCoroutine {A}.

(** ** The coroutines of Optimisation.py, App.py and Weather.py *)

Section Control.

(** What the threads of Plant.py (the pump run started by [turn_on], the
    depletion loop) do to the plant while the event loop sleeps for the
    given number of seconds. *)
Variable elapse : Q -> Plant -> Plant.

(** [datetime.strptime(s, '%H:%M').replace(tzinfo=AEST)] as a point of the
    clock; [None] when the string does not parse ([ValueError]). *)
Variable strptime_HM : string -> option Q.

(** [await asyncio.sleep(d)]. *)
Definition sleep (d : Q) : M unit :=
  modify (fun w => set_clock (clock w + d) (set_plant (option_map (elapse d) (plant w)) w)).

(** *** Optimisation.py *)

(** [Optimisation.__init__]: the two constants. *)
Definition data_points_required : Z := 10.
Definition threshold_tolerance : Q := 5 # 100.

(** Python's [sum]: a left fold from 0. *)
Definition py_sum (l : list Q) : Q := fold_left Qplus l 0.

(** [Optimisation.save_optimisation_data]: the upsert on row 1 leaves the
    row with the given [water_per_percent], created or updated. *)
Definition save_optimisation_data (water_per_percent : Q) : M unit :=
  modify (fun w =>
    set_db {| settings_system_enabled := settings_system_enabled (db w);
              optimisation_water_per_percent := Some water_per_percent;
              weatherdata := weatherdata (db w) |} w).

(** The test of line 45 of Optimisation.py. *)
Definition consistent (data : list Q) (average_water_per_percent : Q) : bool :=
  let deviations := map (fun x => Qabs (x - average_water_per_percent)) data in
  forallb (fun d => Qle_bool d (threshold_tolerance * average_water_per_percent)) deviations.

(** [Optimisation.evaluate_optimisation]. *)
Definition evaluate_optimisation : M unit :=
  data <- get optimisation_data ;;
  average_water_per_percent <- py_div (py_sum data) (inject_Z (Z.of_nat (List.length data))) ;;
  if consistent data average_water_per_percent then
    save_optimisation_data average_water_per_percent ;;;
    add_log_entry
  else
    add_log_entry.

(** [Optimisation.collect_data].  The parameter [current_moisture] is not
    used by the body. *)
Definition collect_data (water_cycle_length current_moisture : Q) : M unit :=
  initial_moisture <- read_soil_moisture ;;
  sleep water_cycle_length ;;;
  sleep 60 ;;;
  final_moisture <- read_soil_moisture ;;
  let increase := final_moisture - initial_moisture in
  if Qlt_bool 0 increase then
    water_per_percent <- py_div water_cycle_length increase ;;
    modify (fun w => set_optimisation_data (optimisation_data w ++ [water_per_percent]) w) ;;;
    modify (fun w => set_optimisation_data_collected (optimisation_data_collected w + 1) w) ;;;
    add_log_entry ;;;
    collected <- get optimisation_data_collected ;;
    if (data_points_required <=? collected)%Z then evaluate_optimisation else ret tt
  else
    add_log_entry.

(** *** App.py *)

(** [System.disable_system]. *)
Definition disable_system : M unit :=
  modify (fun w =>
    set_plant (option_map cancel (plant w))
      (set_status "DISABLED" (set_enabled (Some false) w))).

(** [self.plant.pump.turn_on(...)]. *)
Definition pump_turn_on : M unit :=
  fun w =>
    match plant w with
    | Some p => Returns tt (set_plant (Some (turn_on p)) w)
    | None => Raises AttributeError w
    end.

(** The [while] of [System.water_plant], lines 181-204; [fuel] bounds the
    number of iterations. *)
Fixpoint water_loop (fuel : nat) (target_percentage : Q) : M unit :=
  match fuel with
  | O => fun _ => Pending
  | S fuel' =>
      moisture <- read_soil_moisture ;;
      if Qlt_bool moisture target_percentage then
        cancelled <- get cancelRequested ;;
        if cancelled then disable_system
        else
          wcl <- get (fun w => water_cycle_length (cfg w)) ;;
          pump_turn_on ;;;
          sleep wcl ;;;
          sleep 60 ;;;
          current_moisture <- read_soil_moisture ;;
          if Qle_bool target_percentage current_moisture then ret tt
          else
            collect_data wcl current_moisture ;;;
            water_loop fuel' target_percentage
      else ret tt
  end.

(** [System.water_plant]: the loop under [try], with the handler of lines
    205-207. *)
Definition water_plant (fuel : nat) (target_percentage : Q) : M unit :=
  try_except (water_loop fuel target_percentage) (fun _ => disable_system).

(** [System.enable_system], up to the [create_task] of line 220.  The update
    touches the settings row if there is one. *)
Definition enable_system : M unit :=
  modify (fun w =>
    set_db {| settings_system_enabled :=
                option_map (fun _ => true) (settings_system_enabled (db w));
              optimisation_water_per_percent := optimisation_water_per_percent (db w);
              weatherdata := weatherdata (db w) |}
      (set_status "IDLE" (set_system_enabled true w))).

(** [System.initialize], up to the [create_task] of line 165.  First
    [fetch_settings]: when the store has no settings row, one is created from
    the attributes [__init__] left, which stay as they are; when it has one,
    every attribute is loaded from it.  The store of the model keeps the
    [system_enabled] column of the row; [row] stands for its other columns.
    Then the status and, for an enabled system only, the attribute [enabled]
    are assigned, and the plant is created at [self.desired_soil_moisture]. *)
Definition initialize (row : Settings) : M unit :=
  modify (fun w =>
    let w1 :=
      match settings_system_enabled (db w) with
      | None =>
          set_db {| settings_system_enabled := Some (system_enabled w);
                    optimisation_water_per_percent := optimisation_water_per_percent (db w);
                    weatherdata := weatherdata (db w) |} w
      | Some b => set_system_enabled b (set_cfg row w)
      end in
    let w2 :=
      if system_enabled w1
      then set_status "IDLE" (set_enabled (Some true) w1)
      else set_status "DISABLED" w1 in
    set_plant (Some (Plant_init (desired_soil_moisture (cfg w2)))) w2).

(** [a < b] on datetimes, where [b] may be [None]: comparing a datetime
    with [None] raises [TypeError]. *)
Definition time_lt (a : Q) (b : option Q) : M bool :=
  match b with
  | Some t => ret (Qlt_bool a t)
  | None => raise TypeError
  end.

Definition time_gt (a : Q) (b : option Q) : M bool :=
  match b with
  | Some t => ret (Qlt_bool t a)
  | None => raise TypeError
  end.

(** [strptime] on a setting. *)
Definition parse_time (s : string) : M Q :=
  match strptime_HM s with
  | Some t => ret t
  | None => raise ValueError
  end.

(** The condition of lines 244, 264 and 279. *)
Definition danger_triggered (c : Settings) (currentSoilMoisture desiredSoilMoisture : Q) : bool :=
  danger_mode_enabled c && danger_mode_bypass_enabled c &&
  Qle_bool currentSoilMoisture ((danger_mode_level c / 100) * desiredSoilMoisture).

(** Lines 243-257 of [monitor_plant], "Operating Hours Management".  The
    value is [true] when the block has executed a [return]. *)
Definition operating_hours_management (fuel : nat) (current_time : Q)
    (sunrise_time sunset_time : option Q) (currentSoilMoisture desiredSoilMoisture : Q) : M bool :=
  c <- get cfg ;;
  let mode := operating_hours_mode c in
  if (mode =? "auto")%string || (mode =? "manual")%string then
    if danger_triggered c currentSoilMoisture desiredSoilMoisture then
      water_plant fuel (danger_mode_bypass_water_percentage c) ;;;
      ret true
    else
      stop_auto <-
        (if (mode =? "auto")%string then
           before <- time_lt current_time sunrise_time ;;
           if before then ret true else time_gt current_time sunset_time
         else ret false) ;;
      if stop_auto then ret true
      else if (mode =? "manual")%string then
        opening <- parse_time (operating_hours_start c) ;;
        if Qlt_bool current_time opening then ret true
        else
          closing <- parse_time (operating_hours_end c) ;;
          ret (Qlt_bool closing current_time)
      else ret false
  else ret false.

(** The assignment of lines 270-274 and 286-290. *)
Definition weather_postponement (current_time : Q) : Postponement :=
  {| postponed := true;
     postponedAt := Some current_time;
     postponedBy := Some "Weather Detection"%string |}.

(** The body of one branch of the weather test, lines 264-275 and 279-291:
    reached when the configured combination holds. *)
Definition postpone_or_bypass (fuel : nat) (current_time currentSoilMoisture desiredSoilMoisture : Q) : M unit :=
  c <- get cfg ;;
  if danger_triggered c currentSoilMoisture desiredSoilMoisture then
    water_plant fuel (danger_mode_bypass_water_percentage c)
  else
    modify (set_postponedWater (weather_postponement current_time)).

(** Lines 238-294 of [monitor_plant]: the decision, for the values that
    lines 234-236 bind to [current_time], [sunrise_time], [sunset_time],
    [amount_of_rainfall] and [probability_of_rain]. *)
Definition monitor_plant_decide (fuel : nat) (current_time : Q)
    (sunrise_time sunset_time : option Q)
    (amount_of_rainfall probability_of_rain : Q) : M unit :=
  currentSoilMoisture <- read_soil_moisture ;;
  c <- get cfg ;;
  let desiredSoilMoisture := operating_settings_desired_moisture_level c in
  let triggerAt := (operating_settings_water_threshold c / 100) * desiredSoilMoisture in
  returned <- operating_hours_management fuel current_time sunrise_time sunset_time
                currentSoilMoisture desiredSoilMoisture ;;
  if returned then ret tt
  else
    moisture <- read_soil_moisture ;;
    if Qle_bool moisture triggerAt then
      if weather_detection_enabled c then
        if (weather_detection_mode c =? "AND")%string then
          if Qle_bool (weather_detection_postpone_mm c) amount_of_rainfall &&
             Qle_bool (weather_detection_postpone_percentage c) probability_of_rain
          then postpone_or_bypass fuel current_time currentSoilMoisture desiredSoilMoisture
          else water_plant fuel triggerAt
        else if (weather_detection_mode c =? "OR")%string then
          if Qle_bool (weather_detection_postpone_mm c) amount_of_rainfall ||
             Qle_bool (weather_detection_postpone_percentage c) probability_of_rain
          then postpone_or_bypass fuel current_time currentSoilMoisture desiredSoilMoisture
          else water_plant fuel triggerAt
        else water_plant fuel triggerAt
      else water_plant fuel triggerAt
    else ret tt.

(** *** Weather.py *)

(** [fetch_and_store_weather_data]: without a settings row there is nothing
    to fetch; otherwise both forecasts are requested and the cache is
    replaced only when both replies arrived. *)
Definition fetch_and_store_weather_data : M (option WeatherData) :=
  fun w =>
    match settings_system_enabled (db w) with
    | None => Returns None w
    | Some _ =>
        match rainfall_reply (upstream w), sunrisesunset_reply (upstream w) with
        | Some (avg_rainfall, avg_probability), Some (sunrise_time, sunset_time) =>
            let weather_data :=
              {| mmOfRainfall := avg_rainfall;
                 rainfallProbability := avg_probability;
                 sunrise := sunrise_time;
                 sunset := sunset_time;
                 createdAt := clock w |} in
            Returns (Some weather_data)
              (set_db {| settings_system_enabled := settings_system_enabled (db w);
                         optimisation_water_per_percent := optimisation_water_per_percent (db w);
                         weatherdata := Some weather_data |} w)
        | _, _ => Returns None w
        end
    end.

(** The cache lookup both getters start with: the cached record unless it is
    absent or older than one hour, in which case a refresh is attempted. *)
Definition fresh_weather_data : M (option WeatherData) :=
  cached <- get (fun w => weatherdata (db w)) ;;
  now_aware <- get clock ;;
  match cached with
  | Some weather_data =>
      if Qlt_bool 3600 (now_aware - createdAt weather_data)
      then fetch_and_store_weather_data
      else ret (Some weather_data)
  | None => fetch_and_store_weather_data
  end.

(** [get_precipitation_data]: the body of the coroutine.  Without weather
    data it returns a bare [None]. *)
Definition get_precipitation_data : M (pyobj Q) :=
  weather_data <- fresh_weather_data ;;
  match weather_data with
  | Some r => ret (PyTuple2 (mmOfRainfall r) (rainfallProbability r))
  | None => ret PyNone
  end.

(** [get_sunrise_sunset_times]: the body of the coroutine.  Without weather
    data it returns the pair [(None, None)]. *)
Definition get_sunrise_sunset_times : M (pyobj (option Q)) :=
  weather_data <- fresh_weather_data ;;
  match weather_data with
  | Some r => ret (PyTuple2 (Some (sunrise r)) (Some (sunset r)))
  | None => ret (PyTuple2 None None)
  end.

(** [a, b = obj]. *)
Definition unpack2 {A : Type} (obj : pyobj A) : M (A * A) :=
  match obj with
  | PyTuple2 a b => ret (a, b)
  | PyNone => raise TypeError
  | PyCoroutine => raise TypeError
  end.

(** [f(db)] for an [async def f], written without [await]: the body does not
    run and the value of the call is the coroutine object. *)
Definition call_without_await {A : Type} (body : M (pyobj A)) : pyobj A := PyCoroutine.

(** *** App.py, continued *)

(** [System.monitor_plant]: lines 234-236 as written, then the decision. *)
Definition monitor_plant (fuel : nat) : M unit :=
  current_time <- get clock ;;
  suns <- unpack2 (call_without_await get_sunrise_sunset_times) ;;
  rain <- unpack2 (call_without_await get_precipitation_data) ;;
  monitor_plant_decide fuel current_time (fst suns) (snd suns) (fst rain) (snd rain).

(** [self.enabled]: reading an attribute that was never assigned raises. *)
Definition read_enabled : M bool :=
  fun w =>
    match enabled w with
    | Some b => Returns b w
    | None => Raises AttributeError w
    end.

(** [System.run_loop]; [fuel] bounds the number of iterations, and the
    value counts the ticks the loop evaluated before its guard failed. *)
Fixpoint run_loop (fuel : nat) : M nat :=
  match fuel with
  | O => fun _ => Pending
  | S fuel' =>
      still_enabled <- read_enabled ;;
      if still_enabled then
        monitor_plant fuel' ;;;
        rate <- get (fun w => check_rate (cfg w)) ;;
        sleep (rate / 1000) ;;;
        ticks <- run_loop fuel' ;;
        ret (S ticks)
      else ret O
  end.

(** The task [enable_system] creates on line 220, run from the world
    [enable_system] leaves. *)
Definition enable_system_task (fuel : nat) : M nat :=
  enable_system ;;;
  run_loop fuel.

(** ** Properties of the coroutines, for every thread schedule *)

Lemma Qlt_bool_iff (x y : Q) : Qlt_bool x y = true <-> x < y.
Proof.
  unfold Qlt_bool. rewrite negb_true_iff. split.
  - intros H. apply Qnot_le_lt. intros L.
    apply Qle_bool_iff in L. congruence.
  - intros H. destruct (Qle_bool y x) eqn:E; trivial.
    apply Qle_bool_iff in E. exfalso. exact (Qlt_not_le _ _ H E).
Qed.

Lemma Qlt_bool_false_iff (x y : Q) : Qlt_bool x y = false <-> y <= x.
Proof.
  unfold Qlt_bool. rewrite negb_false_iff. apply Qle_bool_iff.
Qed.

(** *** Frame reasoning: an attribute a coroutine never assigns *)

(** [keeps f m]: whatever way [m] ends, the world it leaves has the value of
    [f] it started with. *)
Definition keeps {A F : Type} (f : World -> F) (m : M A) : Prop :=
  forall w w', final_world (m w) = Some w' -> f w' = f w.

Lemma keeps_ret {A F : Type} (f : World -> F) (a : A) : keeps f (ret a).
Proof. intros w w' H. inversion H. reflexivity. Qed.

Lemma keeps_raise {A F : Type} (f : World -> F) (e : exn) : keeps f (@raise A e).
Proof. intros w w' H. inversion H. reflexivity. Qed.

Lemma keeps_get {A F : Type} (f : World -> F) (g : World -> A) : keeps f (get g).
Proof. intros w w' H. inversion H. reflexivity. Qed.

Lemma keeps_modify {F : Type} (f : World -> F) (g : World -> World) :
  (forall w, f (g w) = f w) -> keeps f (modify g).
Proof. intros Hg w w' H. inversion H. apply Hg. Qed.

Lemma keeps_bind {A B F : Type} (f : World -> F) (m : M A) (k : A -> M B) :
  keeps f m -> (forall a, keeps f (k a)) -> keeps f (bind m k).
Proof.
  intros Hm Hk w w' H. unfold bind in H.
  destruct (m w) as [a w1 | e w1 | ] eqn:E.
  - rewrite (Hk a w1 w' H). apply Hm. rewrite E. reflexivity.
  - inversion H. subst. apply Hm. rewrite E. reflexivity.
  - discriminate.
Qed.

Lemma keeps_try_except {A F : Type} (f : World -> F) (body : M A) (handler : exn -> M A) :
  keeps f body -> (forall e, keeps f (handler e)) -> keeps f (try_except body handler).
Proof.
  intros Hb Hh w w' H. unfold try_except in H.
  destruct (body w) as [a w1 | e w1 | ] eqn:E.
  - inversion H. subst. apply Hb. rewrite E. reflexivity.
  - rewrite (Hh e w1 w' H). apply Hb. rewrite E. reflexivity.
  - discriminate.
Qed.

Lemma keeps_if {A F : Type} (f : World -> F) (b : bool) (m1 m2 : M A) :
  keeps f m1 -> keeps f m2 -> keeps f (if b then m1 else m2).
Proof. destruct b; trivial. Qed.

Lemma keeps_read_soil_moisture {F : Type} (f : World -> F) : keeps f read_soil_moisture.
Proof.
  intros w w' H. unfold read_soil_moisture in H.
  destruct (plant w); inversion H; reflexivity.
Qed.

Lemma keeps_py_div {F : Type} (f : World -> F) (x y : Q) : keeps f (py_div x y).
Proof. unfold py_div. apply keeps_if; [apply keeps_raise | apply keeps_ret]. Qed.

Lemma keeps_add_log_entry {F : Type} (f : World -> F) : keeps f add_log_entry.
Proof. apply keeps_raise. Qed.

Create HintDb keeps.
#[local] Hint Resolve keeps_ret keeps_raise keeps_get keeps_bind keeps_try_except
  keeps_if keeps_read_soil_moisture keeps_py_div keeps_add_log_entry : keeps.

(** Solves [keeps f m] for a coroutine built from the combinators, given
    that every [modify] in it leaves [f] alone by computation. *)
Ltac keeps_step :=
  first
    [ assumption
    | match goal with H : forall _, _ |- _ => apply H end
    | progress cbv beta zeta
    | apply keeps_bind; [ | intros ? ]
    | apply keeps_if
    | apply keeps_try_except; [ | intros ? ]
    | apply keeps_modify; intros ?; reflexivity
    | solve [ auto with keeps ] ].

Ltac keeps_auto := repeat keeps_step.

(** *** The postponement record is assigned by the decision only *)

Lemma sleep_keeps_postponedWater (d : Q) : keeps postponedWater (sleep d).
Proof. unfold sleep. keeps_auto. Qed.

Lemma evaluate_optimisation_keeps_postponedWater : keeps postponedWater evaluate_optimisation.
Proof. unfold evaluate_optimisation, save_optimisation_data. keeps_auto. Qed.

Lemma collect_data_keeps_postponedWater (wcl current_moisture : Q) :
  keeps postponedWater (collect_data wcl current_moisture).
Proof.
  pose proof sleep_keeps_postponedWater.
  pose proof evaluate_optimisation_keeps_postponedWater.
  unfold collect_data. keeps_auto; auto.
Qed.

Lemma disable_system_keeps_postponedWater : keeps postponedWater disable_system.
Proof. unfold disable_system. keeps_auto. Qed.

Lemma pump_turn_on_keeps_postponedWater : keeps postponedWater pump_turn_on.
Proof.
  intros w w' H. unfold pump_turn_on in H.
  destruct (plant w); inversion H; reflexivity.
Qed.

Lemma water_loop_keeps_postponedWater (fuel : nat) (target : Q) :
  keeps postponedWater (water_loop fuel target).
Proof.
  induction fuel as [| fuel IH]; simpl.
  - intros w w' H. discriminate.
  - pose proof sleep_keeps_postponedWater.
    pose proof collect_data_keeps_postponedWater.
    pose proof disable_system_keeps_postponedWater.
    pose proof pump_turn_on_keeps_postponedWater.
    keeps_auto; auto.
Qed.

Lemma water_plant_keeps_postponedWater (fuel : nat) (target : Q) :
  keeps postponedWater (water_plant fuel target).
Proof.
  unfold water_plant. apply keeps_try_except.
  - apply water_loop_keeps_postponedWater.
  - intros _. apply disable_system_keeps_postponedWater.
Qed.

Lemma time_lt_keeps {F : Type} (f : World -> F) (a : Q) (b : option Q) : keeps f (time_lt a b).
Proof. destruct b; simpl; auto with keeps. Qed.

Lemma time_gt_keeps {F : Type} (f : World -> F) (a : Q) (b : option Q) : keeps f (time_gt a b).
Proof. destruct b; simpl; auto with keeps. Qed.

Lemma parse_time_keeps {F : Type} (f : World -> F) (s : string) : keeps f (parse_time s).
Proof. unfold parse_time. destruct (strptime_HM s); auto with keeps. Qed.

Lemma operating_hours_management_keeps_postponedWater
    (fuel : nat) (now : Q) (sr ss : option Q) (m d : Q) :
  keeps postponedWater (operating_hours_management fuel now sr ss m d).
Proof.
  pose proof water_plant_keeps_postponedWater.
  pose proof (time_lt_keeps postponedWater).
  pose proof (time_gt_keeps postponedWater).
  pose proof (parse_time_keeps postponedWater).
  unfold operating_hours_management. keeps_auto; auto.
Qed.

(** *** The decision of one tick *)

Lemma danger_triggered_true (c : Settings) (m d : Q) :
  danger_mode_enabled c = true ->
  danger_mode_bypass_enabled c = true ->
  m <= (danger_mode_level c / 100) * d ->
  danger_triggered c m d = true.
Proof.
  intros He Hb Hm. unfold danger_triggered. rewrite He, Hb. simpl.
  apply Qle_bool_iff. exact Hm.
Qed.

Lemma auto_or_manual (mode : string) :
  mode = "auto"%string \/ mode = "manual"%string ->
  ((mode =? "auto") || (mode =? "manual"))%string = true.
Proof. intros [-> | ->]; reflexivity. Qed.

(** The decision of lines 238-294 taken by itself, for values that lines
    234-236 would have bound.  When the operating-hours mode is auto or
    manual, danger mode and danger bypass are enabled and the current
    moisture is at most (danger_mode_level / 100) * desired moisture, the
    decision is exactly one call of the watering procedure with target
    danger_mode_bypass_water_percentage, and nothing else: whatever the
    current time, the sunrise and sunset times, the rainfall amount and the
    rain probability are.  [monitor_plant] as written does not get this
    far. *)
Theorem danger_override_takes_precedence
    (fuel : nat) (current_time : Q) (sunrise_time sunset_time : option Q)
    (amount_of_rainfall probability_of_rain : Q) (w : World) (p : Plant) :
  plant w = Some p ->
  (operating_hours_mode (cfg w) = "auto" \/ operating_hours_mode (cfg w) = "manual")%string ->
  danger_mode_enabled (cfg w) = true ->
  danger_mode_bypass_enabled (cfg w) = true ->
  soil_moisture_level p <=
    (danger_mode_level (cfg w) / 100) * operating_settings_desired_moisture_level (cfg w) ->
  monitor_plant_decide fuel current_time sunrise_time sunset_time
    amount_of_rainfall probability_of_rain w
  = water_plant fuel (danger_mode_bypass_water_percentage (cfg w)) w.
Proof.
  intros Hp Hmode He Hb Hm.
  unfold monitor_plant_decide, operating_hours_management, bind, read_soil_moisture, get.
  rewrite Hp. unfold get_soil_moisture.
  rewrite (auto_or_manual _ Hmode).
  rewrite (danger_triggered_true _ _ _ He Hb Hm).
  destruct (water_plant fuel (danger_mode_bypass_water_percentage (cfg w)) w)
    as [[] w' | e w' | ]; reflexivity.
Qed.

(** The decision of lines 238-294 taken by itself, continued.  When the
    operating-hours block lets the decision through, with weather
    detection enabled, the current moisture at or below triggerLevel and no
    danger bypass: in AND mode the decision postpones exactly when
    rainfall >= weather_detection_postpone_mm and probability >=
    weather_detection_postpone_percentage, in OR mode exactly when one of the
    two holds.  Postponing assigns the record
    (postponed true, postponedAt now, postponedBy "Weather Detection") and
    changes nothing else, so no watering takes place; otherwise the decision
    is the watering procedure with target triggerLevel. *)
Theorem weather_postponement_decision
    (fuel : nat) (current_time : Q) (sunrise_time sunset_time : option Q)
    (amount_of_rainfall probability_of_rain : Q) (w : World) (p : Plant) :
  let c := cfg w in
  let desired := operating_settings_desired_moisture_level c in
  let triggerLevel := (operating_settings_water_threshold c / 100) * desired in
  let rain_holds := Qle_bool (weather_detection_postpone_mm c) amount_of_rainfall in
  let probability_holds :=
    Qle_bool (weather_detection_postpone_percentage c) probability_of_rain in
  let decision combination :=
    if (combination : bool)
    then Returns tt (set_postponedWater (weather_postponement current_time) w)
    else water_plant fuel triggerLevel w in
  plant w = Some p ->
  operating_hours_management fuel current_time sunrise_time sunset_time
    (soil_moisture_level p) desired w = Returns false w ->
  weather_detection_enabled c = true ->
  soil_moisture_level p <= triggerLevel ->
  danger_triggered c (soil_moisture_level p) desired = false ->
  (weather_detection_mode c = "AND"%string ->
   monitor_plant_decide fuel current_time sunrise_time sunset_time
     amount_of_rainfall probability_of_rain w
   = decision (rain_holds && probability_holds)) /\
  (weather_detection_mode c = "OR"%string ->
   monitor_plant_decide fuel current_time sunrise_time sunset_time
     amount_of_rainfall probability_of_rain w
   = decision (rain_holds || probability_holds)).
Proof.
  intros c desired triggerLevel rain_holds probability_holds decision
    Hp Hgate Hwd Hm Hno.
  apply Qle_bool_iff in Hm.
  assert (Hdec : forall combination : bool,
    (if combination
     then postpone_or_bypass fuel current_time (soil_moisture_level p) desired
     else water_plant fuel triggerLevel) w = decision combination).
  { intros [|]; [ | reflexivity ].
    unfold postpone_or_bypass, bind, get. fold c. rewrite Hno. reflexivity. }
  assert (Hrun :
    monitor_plant_decide fuel current_time sunrise_time sunset_time
      amount_of_rainfall probability_of_rain w
    = (if (weather_detection_mode c =? "AND")%string
       then if rain_holds && probability_holds
            then postpone_or_bypass fuel current_time (soil_moisture_level p) desired
            else water_plant fuel triggerLevel
       else if (weather_detection_mode c =? "OR")%string
            then if rain_holds || probability_holds
                 then postpone_or_bypass fuel current_time (soil_moisture_level p) desired
                 else water_plant fuel triggerLevel
            else water_plant fuel triggerLevel) w).
  { unfold monitor_plant_decide, bind at 1 2.
    unfold read_soil_moisture at 1. rewrite Hp.
    unfold get at 1. unfold get_soil_moisture. fold c desired.
    unfold bind at 1. rewrite Hgate.
    unfold bind at 1. unfold read_soil_moisture. rewrite Hp.
    unfold get_soil_moisture. fold triggerLevel. rewrite Hm.
    fold c. rewrite Hwd. reflexivity. }
  split; intros Hmode; rewrite Hrun, Hmode; simpl; apply Hdec.
Qed.

Lemma final_world_bind {A B : Type} (m : M A) (k : A -> M B) (w w' : World) :
  final_world (bind m k w) = Some w' ->
  (exists a w1, m w = Returns a w1 /\ final_world (k a w1) = Some w') \/
  (exists e, m w = Raises e w').
Proof.
  unfold bind. destruct (m w) as [a w1 | e w1 | ]; intros H.
  - left. exists a, w1. split; [reflexivity | exact H].
  - right. exists e. inversion H. reflexivity.
  - discriminate.
Qed.

Lemma postpone_or_bypass_record (fuel : nat) (now m d : Q) (w w' : World) :
  final_world (postpone_or_bypass fuel now m d w) = Some w' ->
  postponedWater w' = postponedWater w \/ postponedWater w' = weather_postponement now.
Proof.
  unfold postpone_or_bypass, bind, get.
  destruct (danger_triggered (cfg w) m d).
  - intros H. left. exact (water_plant_keeps_postponedWater _ _ _ _ H).
  - intros H. inversion H. right. reflexivity.
Qed.

Lemma monitor_plant_decide_record
    (fuel : nat) (now : Q) (sr ss : option Q) (rain prob : Q) (w w' : World) :
  final_world (monitor_plant_decide fuel now sr ss rain prob w) = Some w' ->
  postponedWater w' = postponedWater w \/ postponedWater w' = weather_postponement now.
Proof.
  unfold monitor_plant_decide. intros H.
  apply final_world_bind in H.
  destruct H as [(m & w1 & Hread & H) | (e & Hread)];
    [ | left; apply (keeps_read_soil_moisture postponedWater w w'); rewrite Hread; reflexivity ].
  assert (E1 : postponedWater w1 = postponedWater w).
  { apply (keeps_read_soil_moisture postponedWater w w1). rewrite Hread. reflexivity. }
  rewrite <- E1. clear Hread E1.
  apply final_world_bind in H.
  destruct H as [(c & w2 & Hget & H) | (e & Hget)]; [ | discriminate ].
  inversion Hget. subst c w2. clear Hget.
  apply final_world_bind in H.
  destruct H as [(returned & w2 & Hgate & H) | (e & Hgate)].
  - assert (E2 : postponedWater w2 = postponedWater w1).
    { apply (operating_hours_management_keeps_postponedWater
               fuel now sr ss m (operating_settings_desired_moisture_level (cfg w1)) w1 w2).
      rewrite Hgate. reflexivity. }
    rewrite <- E2. clear Hgate E2.
    destruct returned.
    + inversion H. left. reflexivity.
    + apply final_world_bind in H.
      destruct H as [(m' & w3 & Hread & H) | (e & Hread)];
        [ | left; apply (keeps_read_soil_moisture postponedWater w2 w');
            rewrite Hread; reflexivity ].
      assert (E3 : postponedWater w3 = postponedWater w2).
      { apply (keeps_read_soil_moisture postponedWater w2 w3). rewrite Hread. reflexivity. }
      rewrite <- E3. clear Hread E3.
      pose proof (water_plant_keeps_postponedWater fuel) as Hwater.
      repeat match type of H with
             | final_world ((if ?b then _ else _) _) = _ => destruct b
             end;
        first [ left; exact (Hwater _ _ _ H)
              | exact (postpone_or_bypass_record _ _ _ _ _ _ H)
              | inversion H; left; reflexivity ].
  - left.
    apply (operating_hours_management_keeps_postponedWater
             fuel now sr ss m (operating_settings_desired_moisture_level (cfg w1)) w1 w').
    rewrite Hgate. reflexivity.
Qed.

Lemma enable_system_keeps_postponedWater : keeps postponedWater enable_system.
Proof. unfold enable_system. keeps_auto. Qed.

(** The decision of lines 238-294 taken by itself, continued.  The
    postponement record is assigned by the
    decision only, and only to the weather postponement of the current tick:
    the watering procedure, enabling and disabling leave it alone, and the
    world a tick leaves holds either the record the tick started with or the
    weather postponement stamped with the tick's time.  Nothing resets it: a
    tick whose decision is a call of the watering procedure leaves the
    record exactly as it found it. *)
Theorem postponement_record_only_set_never_cleared
    (fuel : nat) (current_time : Q) (sunrise_time sunset_time : option Q)
    (amount_of_rainfall probability_of_rain : Q) (w w' : World) :
  final_world (monitor_plant_decide fuel current_time sunrise_time sunset_time
                 amount_of_rainfall probability_of_rain w) = Some w' ->
  (postponedWater w' = postponedWater w \/
   postponedWater w' = weather_postponement current_time) /\
  (forall target : Q,
     monitor_plant_decide fuel current_time sunrise_time sunset_time
       amount_of_rainfall probability_of_rain w = water_plant fuel target w ->
     postponedWater w' = postponedWater w) /\
  (forall (n : nat) (target : Q), keeps postponedWater (water_plant n target)) /\
  keeps postponedWater enable_system /\
  keeps postponedWater disable_system.
Proof.
  intros H. repeat split.
  - exact (monitor_plant_decide_record _ _ _ _ _ _ _ _ H).
  - intros target E. rewrite E in H.
    exact (water_plant_keeps_postponedWater _ _ _ _ H).
  - exact water_plant_keeps_postponedWater.
  - exact enable_system_keeps_postponedWater.
  - exact disable_system_keeps_postponedWater.
Qed.

(** *** The watering procedure *)

Lemma cancel_requests_cancellation (p : Plant) :
  is_on (pump p) = true -> cancel_requested (pump (cancel p)) = true.
Proof. intros H. unfold cancel. rewrite H. reflexivity. Qed.

(** C5.  Whatever exception the loop under [try] raises, and in whatever
    world it raises it, [water_plant] returns normally: the handler runs
    [disable_system], which leaves status "DISABLED", the attribute
    [enabled] false and the pump of the plant (when there is one) after a
    call of [cancel], which requests cancellation of a pump that is on. *)
Theorem water_plant_disables_on_exception
    (fuel : nat) (target_percentage : Q) (w w1 : World) (e : exn) :
  water_loop fuel target_percentage w = Raises e w1 ->
  exists w2 : World,
    water_plant fuel target_percentage w = Returns tt w2 /\
    status w2 = "DISABLED"%string /\
    enabled w2 = Some false /\
    plant w2 = option_map cancel (plant w1) /\
    (forall p : Plant, plant w1 = Some p -> is_on (pump p) = true ->
       exists p2 : Plant, plant w2 = Some p2 /\ cancel_requested (pump p2) = true).
Proof.
  intros H.
  exists (set_plant (option_map cancel (plant w1))
            (set_status "DISABLED" (set_enabled (Some false) w1))).
  unfold water_plant, try_except. rewrite H.
  repeat split.
  intros p Hp Hon. exists (cancel p). simpl. rewrite Hp. simpl.
  split; [reflexivity | apply cancel_requests_cancellation; exact Hon].
Qed.

(** *** The calibration engine *)





(** The value passed as [current_moisture] has no influence on what
    [collect_data] does. *)
Lemma collect_data_ignores_current_moisture (water_cycle_length c1 c2 : Q) :
  collect_data water_cycle_length c1 = collect_data water_cycle_length c2.
Proof. reflexivity. Qed.

(** The increase [collect_data] measures is taken over its own two sleeps,
    from the reading at the call. *)
Lemma collect_data_measures_its_own_wait
    (water_cycle_length current_moisture : Q) (w : World) (p : Plant) :
  plant w = Some p ->
  0 < soil_moisture_level (elapse 60 (elapse water_cycle_length p)) - soil_moisture_level p ->
  exists w' : World,
    collect_data water_cycle_length current_moisture w = Raises AttributeError w' /\
    optimisation_data w' =
      optimisation_data w ++
      [water_cycle_length /
       (soil_moisture_level (elapse 60 (elapse water_cycle_length p)) - soil_moisture_level p)] /\
    optimisation_data_collected w' = (optimisation_data_collected w + 1)%Z.
Proof.
  intros Hp Hinc.
  assert (Hnz : Qeq_bool
                  (soil_moisture_level (elapse 60 (elapse water_cycle_length p))
                   - soil_moisture_level p) 0 = false).
  { destruct (Qeq_bool _ 0) eqn:E; trivial.
    apply Qeq_bool_iff in E. rewrite E in Hinc. discriminate. }
  apply Qlt_bool_iff in Hinc.
  unfold collect_data, bind, read_soil_moisture, sleep, modify. rewrite Hp.
  simpl. rewrite Hp. simpl. unfold get_soil_moisture. rewrite Hinc.
  unfold py_div. rewrite Hnz. simpl.
  eexists. split; [reflexivity | split; reflexivity].
Qed.

End Control.

(** ** Concrete runs *)

(** *** A clock reading of "HH:MM" *)

Definition digit_of (c : Ascii.ascii) : option Z :=
  let n := (Z.of_nat (Ascii.nat_of_ascii c) - 48)%Z in
  if ((0 <=? n) && (n <=? 9))%Z then Some n else None.

(** One or two decimal digits, as [%H] and [%M] accept. *)
Definition number_of (s : string) : option Z :=
  match s with
  | String a EmptyString => digit_of a
  | String a (String b EmptyString) =>
      match digit_of a, digit_of b with
      | Some x, Some y => Some (10 * x + y)%Z
      | _, _ => None
      end
  | _ => None
  end.

Fixpoint split_at_colon (s : string) : option (string * string) :=
  match s with
  | EmptyString => None
  | String c rest =>
      if Ascii.eqb c ":"%char then Some (EmptyString, rest)
      else
        match split_at_colon rest with
        | Some (before, after) => Some (String c before, after)
        | None => None
        end
  end.

(** [strptime(s, '%H:%M')] on a clock that counts seconds from the start of
    1 January 1900, the date [strptime] gives a time without a date. *)
Definition strptime_clock (s : string) : option Q :=
  match split_at_colon s with
  | Some (h, m) =>
      match number_of h, number_of m with
      | Some hh, Some mm =>
          if ((hh <? 24) && (mm <? 60))%Z
          then Some (inject_Z (3600 * hh + 60 * mm))
          else None
      | _, _ => None
      end
  | None => None
  end.

(** *** Sample worlds *)

(** A store with a settings row and nothing else. *)
Definition store (row_enabled : bool) : Database :=
  {| settings_system_enabled := Some row_enabled;
     optimisation_water_per_percent := None;
     weatherdata := None |}.

(** A forecast service that does not answer with status 200. *)
Definition service_down : Upstream :=
  {| rainfall_reply := None; sunrisesunset_reply := None |}.

(** The world after [__init__] and [initialize] over a store whose settings
    row holds the default settings and the given [system_enabled], read at
    noon of some day. *)
Definition started (row_enabled : bool) : World :=
  match initialize default_settings (System_init (store row_enabled) service_down 43200) with
  | Returns _ w => w
  | _ => System_init (store row_enabled) service_down 43200
  end.

(** The started world with the plant at a given moisture. *)
Definition started_with_moisture (row_enabled : bool) (moisture : Q) : World :=
  set_plant (Some (Plant_init moisture)) (started row_enabled).

Definition with_settings (c : Settings) (w : World) : World :=
  mkWorld c (system_enabled w) (enabled w) (cancelRequested w) (status w) (plant w)
    (postponedWater w) (optimisation_data w) (optimisation_data_collected w)
    (db w) (upstream w) (clock w).

(** The world a coroutine leaves when run from [w] ([w] itself if it is
    still running). *)
Definition exec {A : Type} (m : M A) (w : World) : World :=
  match final_world (m w) with
  | Some w' => w'
  | None => w
  end.

(** The default settings for a pot whose desired moisture level is 5. *)
Definition small_pot_settings : Settings :=
  {| check_rate := 60000;
     operating_settings_desired_moisture_level := 5;
     operating_settings_water_threshold := 20;
     operating_hours_mode := "auto";
     operating_hours_start := "06:00";
     operating_hours_end := "18:00";
     weather_detection_enabled := true;
     weather_detection_mode := "AND";
     weather_detection_postpone_percentage := 35;
     weather_detection_postpone_mm := 5;
     danger_mode_enabled := true;
     danger_mode_level := 10;
     danger_mode_bypass_enabled := true;
     danger_mode_bypass_water_percentage := 40;
     desired_soil_moisture := 5;
     water_cycle_length := 5 |}.

(** A running system whose record still holds the weather postponement of an
    earlier tick; the moisture 0.6 is below the trigger level 1 and above the
    danger level 0.5. *)
Definition postponed_earlier : World :=
  set_postponedWater (weather_postponement 39600)
    (with_settings small_pot_settings (started_with_moisture true (6 # 10))).

(** Sunrise at 06:00 and sunset at 18:00 of the day whose noon the sample
    worlds start at. *)
Definition sample_sunrise : option Q := Some 21600.
Definition sample_sunset : option Q := Some 64800.

(** ** Plant.py: the range of the moisture level *)

Lemma decrease_soil_moisture_tick_floor (p : Plant) :
  0 <= soil_moisture_level (decrease_soil_moisture_tick p).
Proof.
  unfold decrease_soil_moisture_tick. simpl.
  destruct (Qlt_bool (soil_moisture_level p - moisture_depletion_rate p) 0) eqn:E.
  - apply Qle_refl.
  - apply Qlt_bool_false_iff. exact E.
Qed.

Lemma decrease_soil_moisture_tick_subtracts (p : Plant) :
  0 <= soil_moisture_level p - moisture_depletion_rate p ->
  soil_moisture_level (decrease_soil_moisture_tick p)
  = soil_moisture_level p - moisture_depletion_rate p.
Proof.
  intros H. apply Qlt_bool_false_iff in H.
  unfold decrease_soil_moisture_tick. simpl. rewrite H. reflexivity.
Qed.

Lemma add_water_at_most_one (p : Plant) :
  is_on (pump p) = true -> soil_moisture_level (add_water p) <= 1.
Proof.
  intros Hon. unfold add_water. rewrite Hon. simpl.
  destruct (Qlt_bool 1 (soil_moisture_level p + (1 # 2))) eqn:E.
  - apply Qle_refl.
  - apply Qlt_bool_false_iff. exact E.
Qed.

(** C8, at the failing input.  With the pump on and the moisture at 50 of
    the 0-100 scale, one increment leaves the moisture at 1, not at 50.5: the
    ceiling [add_water] clamps at is 1.0, for every moisture it starts from.
    The depletion tick does stay at or above the floor 0. *)
Theorem add_water_clamps_at_one :
  let p := turn_on (Plant_init 50) in
  soil_moisture_level (add_water p) = 1 /\
  ~ soil_moisture_level (add_water p) == 50 + (1 # 2) /\
  (forall q : Plant, is_on (pump q) = true -> soil_moisture_level (add_water q) <= 1) /\
  (forall q : Plant, 0 <= soil_moisture_level (decrease_soil_moisture_tick q)).
Proof.
  simpl. repeat split.
  - intros H. discriminate H.
  - exact add_water_at_most_one.
  - exact decrease_soil_moisture_tick_floor.
Qed.

(** ** App.py: the monitor loop *)

(** As written, [monitor_plant] unpacks the coroutine object of line 235 and
    so raises [TypeError] before any decision, in every world. *)
Lemma monitor_plant_raises_TypeError
    (elapse : Q -> Plant -> Plant) (strptime_HM : string -> option Q)
    (fuel : nat) (w : World) :
  monitor_plant elapse strptime_HM fuel w = Raises TypeError w.
Proof. reflexivity. Qed.

(** C2, at the failing input.  A system that was initialised disabled is
    enabled: the flag is stored, the status is "IDLE", and the loop task
    raises [AttributeError] at its guard, which reads [enabled], an attribute
    [enable_system] does not assign.  A system that was running and then
    disabled is enabled again: the loop task, finding [enabled] false, returns
    at once.  In both cases no tick is evaluated, for any thread schedule. *)
Theorem run_loop_guard_ignores_enable_system
    (elapse : Q -> Plant -> Plant) (strptime_HM : string -> option Q) (fuel : nat) :
  let w1 := exec enable_system (started false) in
  let w2 := exec enable_system (exec disable_system (started true)) in
  (system_enabled w1 = true /\ status w1 = "IDLE"%string /\
   settings_system_enabled (db w1) = Some true /\ enabled w1 = None /\
   enable_system_task elapse strptime_HM (S fuel) (started false)
   = Raises AttributeError w1) /\
  (system_enabled w2 = true /\ status w2 = "IDLE"%string /\
   settings_system_enabled (db w2) = Some true /\ enabled w2 = Some false /\
   enable_system_task elapse strptime_HM (S fuel) (exec disable_system (started true))
   = Returns O w2).
Proof.
  cbv zeta. vm_compute. repeat split.
Qed.

(** ** Weather.py: no weather data *)

(** C6, at the failing input.  With an empty cache and a forecast service
    that does not answer, the refresh yields nothing and
    [get_precipitation_data] returns a bare [None]; unpacking that result as
    a pair raises [TypeError].  [monitor_plant] raises [TypeError] in this
    world (it does so already at the unpacking of line 235), nothing catches
    it, and the monitor loop ends with that exception at its first tick. *)
Theorem weather_unavailable_ends_the_loop
    (elapse : Q -> Plant -> Plant) (strptime_HM : string -> option Q) (fuel : nat) :
  let w := started true in
  weatherdata (db w) = None /\
  fetch_and_store_weather_data w = Returns None w /\
  get_precipitation_data w = Returns PyNone w /\
  bind get_precipitation_data unpack2 w = Raises TypeError w /\
  get_sunrise_sunset_times w = Returns (PyTuple2 None None) w /\
  monitor_plant elapse strptime_HM fuel w = Raises TypeError w /\
  run_loop elapse strptime_HM (S fuel) w = Raises TypeError w.
Proof.
  simpl. repeat split.
Qed.

(** ** Optimisation.py: what [collect_data] measures *)

(** The world at the call of line 202 in the first cycle of a watering that
    starts at moisture 0.2 with target 20: the pump has run, the reading has
    settled at 1. *)
Definition after_first_cycle : World :=
  exec (bind pump_turn_on (fun _ =>
        bind (sleep pump_thread_schedule 5) (fun _ => sleep pump_thread_schedule 60)))
       (started_with_moisture true (2 # 10)).

(** C10, at the failing input.  The cycle raised the moisture from 0.2 to 1,
    and 1 is the value passed to [collect_data], so the ratio of the claim is
    5 / (1 - 0.2).  The code takes its first reading at the call, after the
    cycle, waits again and reads again: the increase it computes is 0, and no
    ratio is appended.  The value passed has no influence on the outcome, and
    the watering the call belongs to ends with an empty sample sequence. *)
Theorem collect_data_measures_after_the_cycle :
  let before := started_with_moisture true (2 # 10) in
  let w := after_first_cycle in
  option_map soil_moisture_level (plant before) = Some (2 # 10) /\
  option_map soil_moisture_level (plant w) = Some 1 /\
  5 / (1 - (2 # 10)) == 25 # 4 /\
  (exists w', collect_data pump_thread_schedule 5 1 w = Raises AttributeError w' /\
              optimisation_data w' = [] /\
              optimisation_data_collected w' = 0%Z) /\
  (forall passed : Q,
     collect_data pump_thread_schedule 5 passed w
     = collect_data pump_thread_schedule 5 1 w) /\
  optimisation_data (exec (water_plant pump_thread_schedule 2 20) before) = [].
Proof.
  cbv zeta.
  split; [vm_compute; reflexivity | ].
  split; [vm_compute; reflexivity | ].
  split; [vm_compute; reflexivity | ].
  split; [eexists; vm_compute; repeat split | ].
  split; [intros passed; reflexivity | ].
  vm_compute. reflexivity.
Qed.

(** ** Instances *)

(** A tick in danger: default settings (danger level 10), moisture 5, at
    three in the morning, outside the hours of auto mode, with rain
    forecast. *)
Lemma danger_override_takes_precedence_witness :
  let w := started_with_moisture true 5 in
  plant w = Some (Plant_init 5) /\
  monitor_plant_decide pump_thread_schedule strptime_clock 3 10800
    sample_sunrise sample_sunset 6 40 w
  = water_plant pump_thread_schedule 3 40 w.
Proof.
  split; [reflexivity | ].
  apply (danger_override_takes_precedence pump_thread_schedule strptime_clock
           3 10800 sample_sunrise sample_sunset 6 40
           (started_with_moisture true 5) (Plant_init 5)).
  - reflexivity.
  - left. reflexivity.
  - reflexivity.
  - reflexivity.
  - apply Qle_bool_iff. reflexivity.
Defined.

(** The example of the specification: AND mode, rainfall 6 mm against 5 and
    probability 40 against 35, moisture 15 between the danger level 10 and
    the trigger level 20, at noon. *)
Lemma weather_postponement_decision_witness :
  let w := started_with_moisture true 15 in
  operating_hours_management pump_thread_schedule strptime_clock 3 43200
    sample_sunrise sample_sunset 15 100 w = Returns false w /\
  monitor_plant_decide pump_thread_schedule strptime_clock 3 43200
    sample_sunrise sample_sunset 6 40 w
  = Returns tt (set_postponedWater (weather_postponement 43200) w).
Proof.
  split; [reflexivity | ].
  assert (Hlevel : soil_moisture_level (Plant_init 15) <= (20 / 100) * 100).
  { apply Qle_bool_iff. reflexivity. }
  exact (proj1
           (weather_postponement_decision pump_thread_schedule strptime_clock
              3 43200 sample_sunrise sample_sunset 6 40
              (started_with_moisture true 15) (Plant_init 15)
              eq_refl eq_refl eq_refl Hlevel eq_refl)
           eq_refl).
Defined.

(** The other half of the example: probability 10 is below 35, so the
    decision is the watering procedure with target 20. *)
Example weather_and_mode_low_probability_waters :
  let w := started_with_moisture true 15 in
  monitor_plant_decide pump_thread_schedule strptime_clock 3 43200
    sample_sunrise sample_sunset 6 10 w
  = water_plant pump_thread_schedule 3 20 w.
Proof. vm_compute. reflexivity. Qed.


(** Ten samples with mean 4.0, the last one 20 percent above the mean. *)
Definition one_sample_off : World :=
  set_optimisation_data_collected 10
    (set_optimisation_data (repeat (176 # 45) 9 ++ [48 # 10])
       (started_with_moisture true 50)).


(** One sample 20 percent off the mean: nothing is stored and the samples
    stay. *)
Example evaluate_optimisation_rejects_one_sample_off :
  py_sum (optimisation_data one_sample_off) / 10 == 4 /\
  final_world (evaluate_optimisation one_sample_off) = Some one_sample_off /\
  optimisation_water_per_percent (db one_sample_off) = None.
Proof.
  split; [reflexivity | split; [ | reflexivity ] ].
  vm_compute. reflexivity.
Qed.

(** A watering from moisture 0.2 towards 20: after the first cycle the
    reading is 1, the loop calls [collect_data], whose [add_log_entry]
    raises, and the handler disables the system. *)
Lemma water_plant_disables_on_exception_witness :
  let w := started_with_moisture true (2 # 10) in
  let w1 := exec (water_loop pump_thread_schedule 2 20) w in
  water_loop pump_thread_schedule 2 20 w = Raises AttributeError w1 /\
  exists w2 : World,
    water_plant pump_thread_schedule 2 20 w = Returns tt w2 /\
    status w2 = "DISABLED"%string /\
    enabled w2 = Some false /\
    plant w2 = option_map cancel (plant w1).
Proof.
  assert (H : water_loop pump_thread_schedule 2 20 (started_with_moisture true (2 # 10))
              = Raises AttributeError
                  (exec (water_loop pump_thread_schedule 2 20)
                     (started_with_moisture true (2 # 10)))).
  { vm_compute. reflexivity. }
  split; [exact H | ].
  destruct (water_plant_disables_on_exception pump_thread_schedule 2 20 _ _ _ H)
    as (w2 & Hret & Hstatus & Henabled & Hplant & _).
  exists w2. repeat split; assumption.
Defined.


(** On the decision taken by itself nothing resets the record.  The record
    holds a postponement of an earlier decision.
    The present one, at noon with no rain forecast, decides to water to the
    trigger level 1; the watering reaches the target and returns with the
    system still enabled; the record still reports the postponement. *)
Lemma postponement_survives_a_watering_tick :
  let w := postponed_earlier in
  let tick :=
    monitor_plant_decide pump_thread_schedule strptime_clock 3 43200
      sample_sunrise sample_sunset 0 0 in
  postponed (postponedWater w) = true /\
  tick w = water_plant pump_thread_schedule 3 ((20 / 100) * 5) w /\
  option_map soil_moisture_level (plant (exec tick w)) = Some 1 /\
  status (exec tick w) = "IDLE"%string /\
  postponed (postponedWater (exec tick w)) = true /\
  ~ (forall w', final_world (tick w) = Some w' ->
                postponed (postponedWater w') = false).
Proof.
  repeat split.
  intros H. specialize (H (exec
    (monitor_plant_decide pump_thread_schedule strptime_clock 3 43200
       sample_sunrise sample_sunset 0 0) postponed_earlier) eq_refl).
  discriminate H.
Qed.

(** The same decision, as an instance of the lemma on the record. *)
Lemma postponement_record_only_set_never_cleared_witness :
  let w := postponed_earlier in
  let w' :=
    exec (monitor_plant_decide pump_thread_schedule strptime_clock 3 43200
            sample_sunrise sample_sunset 0 0) w in
  final_world (monitor_plant_decide pump_thread_schedule strptime_clock 3 43200
                 sample_sunrise sample_sunset 0 0 w) = Some w' /\
  (postponedWater w' = postponedWater w \/
   postponedWater w' = weather_postponement 43200).
Proof.
  split; [reflexivity | ].
  exact (proj1 (postponement_record_only_set_never_cleared pump_thread_schedule
                  strptime_clock 3 43200 sample_sunrise sample_sunset 0 0
                  postponed_earlier _ eq_refl)).
Defined.

(** * Further coverage: the rest of Optimisation.py, App.py, Weather.py
      and Plant.py *)

(** ** Weather.py: [calculate_rainfall] *)

(** One entry of a day of the rainfall forecast, with [dateTime] already
    read as a point of the clock. *)
Record RainfallEntry : Type := mkRainfallEntry {
  dateTime : Q;
  startRange : Q;
  endRange : Q;
  probability : Q
}.

(** The entries the two nested loops of [calculate_rainfall] keep: those of
    all days, in order, whose time is after [current_time]. *)
Definition entries_after (current_time : Q) (days : list (list RainfallEntry)) : list RainfallEntry :=
  filter (fun entry => Qlt_bool current_time (dateTime entry)) (List.concat days).

(** [calculate_rainfall]: the mean of the mid-range amounts and the mean of
    the probabilities of the entries after [current_time]; [(0, 0)] when
    there is none. *)
Definition calculate_rainfall (current_time : Q) (days : list (list RainfallEntry)) : Q * Q :=
  let kept := entries_after current_time days in
  let rainfall_amounts := map (fun entry => (startRange entry + endRange entry) / 2) kept in
  let probabilities := map probability kept in
  match rainfall_amounts, probabilities with
  | _ :: _, _ :: _ =>
      (py_sum rainfall_amounts / inject_Z (Z.of_nat (List.length rainfall_amounts)),
       py_sum probabilities / inject_Z (Z.of_nat (List.length probabilities)))
  | _, _ => (0, 0)
  end.

(** ** Optimisation.py: [apply_optimisation] *)

Section Coverage.

Variable elapse : Q -> Plant -> Plant.
Variable strptime_HM : string -> option Q.

(** The [for _ in range(2)] of [apply_optimisation], lines 76-91, with
    [cycles] iterations left.  The value is [true] when the loop has executed
    the [return] of the cancellation branch. *)
Fixpoint optimised_cycles (cycles : nat) (water_needed_per_cycle target_percentage : Q) : M bool :=
  match cycles with
  | O => ret false
  | S cycles' =>
      cancelled <- get cancelRequested ;;
      if cancelled then
        add_log_entry ;;;
        disable_system ;;;
        ret true
      else
        add_log_entry ;;;
        pump_turn_on ;;;
        sleep elapse water_needed_per_cycle ;;;
        sleep elapse 60 ;;;
        moisture <- read_soil_moisture ;;
        if Qle_bool target_percentage moisture then
          add_log_entry ;;;
          ret false
        else optimised_cycles cycles' water_needed_per_cycle target_percentage
  end.

(** [Optimisation.apply_optimisation]. *)
Definition apply_optimisation (target_percentage : Q) : M unit :=
  data <- get optimisation_data ;;
  match data with
  | [] => add_log_entry
  | first :: others =>
      let water_per_percent := last others first in
      moisture <- read_soil_moisture ;;
      let water_needed := (target_percentage - moisture) * water_per_percent in
      let water_needed_per_cycle := water_needed / 2 in
      returned <- optimised_cycles 2 water_needed_per_cycle target_percentage ;;
      if returned then ret tt else add_log_entry
  end.

(** ** Frame and invariant reasoning, continued *)

Ltac frame_step :=
  first
    [ assumption
    | match goal with H : forall _, _ |- _ => apply H end
    | progress cbv beta zeta
    | apply keeps_bind; [ | intros ? ]
    | apply keeps_if
    | apply keeps_try_except; [ | intros ? ]
    | apply keeps_modify; intros ?; reflexivity
    | apply keeps_ret | apply keeps_raise | apply keeps_get
    | apply keeps_read_soil_moisture | apply keeps_py_div
    | apply keeps_add_log_entry ].

Ltac frame := repeat frame_step.

(** ** Optimisation.py *)

(** X1.  [apply_optimisation] never reaches the pump: whatever the samples,
    the target and the cancellation flag, its first statement that is
    reached calls [add_log_entry] (or reads the moisture of a plant that does
    not exist), so it ends in [AttributeError] in the world it started in. *)
Theorem apply_optimisation_never_waters (target_percentage : Q) (w : World) :
  apply_optimisation target_percentage w = Raises AttributeError w.
Proof.
  unfold apply_optimisation, bind, get.
  destruct (optimisation_data w) as [| first others]; [reflexivity | ].
  unfold read_soil_moisture.
  destruct (plant w) as [p | ]; [ | reflexivity ].
  simpl. unfold bind, get.
  destruct (cancelRequested w); reflexivity.
Qed.

Lemma positive_is_nonzero (x : Q) : Qlt_bool 0 x = true -> Qeq_bool x 0 = false.
Proof.
  intros H. apply Qlt_bool_iff in H.
  destruct (Qeq_bool x 0) eqn:E; trivial.
  apply Qeq_bool_iff in E. rewrite E in H. discriminate H.
Qed.

(** The world [collect_data] leaves, field by field: the plant and the clock
    have gone through the two sleeps, and the sample sequence and the count
    have grown together or not at all. *)
Lemma collect_data_outcome (water_cycle_length current_moisture : Q) (w : World) :
  exists w' : World,
    collect_data elapse water_cycle_length current_moisture w = Raises AttributeError w' /\
    cfg w' = cfg w /\ system_enabled w' = system_enabled w /\
    enabled w' = enabled w /\ cancelRequested w' = cancelRequested w /\
    status w' = status w /\ postponedWater w' = postponedWater w /\
    db w' = db w /\ upstream w' = upstream w /\
    (optimisation_data_collected w' - Z.of_nat (List.length (optimisation_data w')))%Z
    = (optimisation_data_collected w - Z.of_nat (List.length (optimisation_data w)))%Z.
Proof.
  unfold collect_data, bind, read_soil_moisture.
  destruct (plant w) as [p | ] eqn:Hp.
  - unfold sleep, modify. simpl. rewrite Hp. simpl.
    unfold get_soil_moisture.
    destruct (Qlt_bool 0 (soil_moisture_level (elapse 60 (elapse water_cycle_length p))
                          - soil_moisture_level p)) eqn:E.
    + unfold py_div. rewrite (positive_is_nonzero _ E). simpl.
      eexists. split; [reflexivity | ]. simpl. repeat split.
      rewrite length_app. simpl. lia.
    + eexists. split; [reflexivity | ]. simpl. repeat split.
  - exists w. repeat split.
Qed.

(** X2.  [collect_data] never returns normally: every call ends in
    [AttributeError], before the count is compared with
    [data_points_required], so it never reaches [evaluate_optimisation] and
    never writes the store. *)
Theorem collect_data_always_raises (water_cycle_length current_moisture : Q) (w : World) :
  exists w' : World,
    collect_data elapse water_cycle_length current_moisture w = Raises AttributeError w' /\
    db w' = db w.
Proof.
  destruct (collect_data_outcome water_cycle_length current_moisture w)
    as (w' & Hrun & _ & _ & _ & _ & _ & _ & Hdb & _).
  exists w'. split; assumption.
Qed.

(** X3.  When the reading rises during the two waits of [collect_data]
    itself, the call appends the ratio of the cycle length to that rise and
    adds one to the count; it then ends in [AttributeError] with the store
    untouched, so the samples are not evaluated even when the count has
    reached [data_points_required]. *)
Theorem collect_data_appends_its_own_measurement
    (water_cycle_length current_moisture : Q) (w : World) (p : Plant) :
  plant w = Some p ->
  0 < soil_moisture_level (elapse 60 (elapse water_cycle_length p)) - soil_moisture_level p ->
  exists w' : World,
    collect_data elapse water_cycle_length current_moisture w = Raises AttributeError w' /\
    optimisation_data w' =
      optimisation_data w ++
      [water_cycle_length /
       (soil_moisture_level (elapse 60 (elapse water_cycle_length p)) - soil_moisture_level p)] /\
    optimisation_data_collected w' = (optimisation_data_collected w + 1)%Z /\
    db w' = db w.
Proof.
  intros Hp Hinc.
  destruct (collect_data_measures_its_own_wait elapse water_cycle_length
              current_moisture w p Hp Hinc) as (w1 & Hrun & Hdata & Hcount).
  destruct (collect_data_outcome water_cycle_length current_moisture w)
    as (w2 & Hrun2 & _ & _ & _ & _ & _ & _ & Hdb & _).
  assert (E : w2 = w1) by congruence.
  subst w2. exists w1. repeat split; assumption.
Qed.

(** X4.  On an empty sample sequence [evaluate_optimisation] divides by zero:
    it raises [ZeroDivisionError] and leaves the world as it was. *)
Theorem evaluate_optimisation_empty (w : World) :
  optimisation_data w = [] ->
  evaluate_optimisation w = Raises ZeroDivisionError w.
Proof.
  intros H. unfold evaluate_optimisation, bind, get. rewrite H. reflexivity.
Qed.

(** ** App.py: the watering procedure *)

(** The readings of one cycle: the plant after [turn_on] and the two sleeps
    of lines 191-192. *)
Definition after_cycle (c : Settings) (p : Plant) : Plant :=
  elapse 60 (elapse (water_cycle_length c) (turn_on p)).

Lemma water_loop_first_iteration (fuel : nat) (target : Q) (w : World) (p : Plant) :
  plant w = Some p ->
  Qlt_bool (soil_moisture_level p) target = true ->
  cancelRequested w = false ->
  let w1 := set_clock (clock w + water_cycle_length (cfg w) + 60)
              (set_plant (Some (after_cycle (cfg w) p)) w) in
  water_loop elapse (S fuel) target w
  = if Qle_bool target (soil_moisture_level (after_cycle (cfg w) p))
    then Returns tt w1
    else bind (collect_data elapse (water_cycle_length (cfg w))
                 (soil_moisture_level (after_cycle (cfg w) p)))
              (fun _ => water_loop elapse fuel target) w1.
Proof.
  intros Hp Hlt Hc w1. simpl.
  unfold bind at 1. unfold read_soil_moisture at 1. rewrite Hp.
  unfold get_soil_moisture. rewrite Hlt.
  unfold bind at 1. unfold get at 1. rewrite Hc.
  unfold bind at 1. unfold get at 1.
  unfold bind at 1. unfold pump_turn_on at 1. rewrite Hp.
  unfold bind at 1. unfold sleep at 1. unfold modify at 1.
  unfold bind at 1. unfold sleep at 1. unfold modify at 1.
  unfold bind at 1. unfold read_soil_moisture at 1.
  simpl. unfold get_soil_moisture, after_cycle. fold w1.
  destruct (Qle_bool target
              (soil_moisture_level (elapse 60 (elapse (water_cycle_length (cfg w)) (turn_on p)))));
    reflexivity.
Qed.

(** The outcome of [water_plant] in closed form, for any fuel that allows
    one iteration. *)
Lemma water_plant_outcome (fuel : nat) (target : Q) (w : World) :
  water_plant elapse (S fuel) target w
  = Returns tt
      match plant w with
      | None => exec disable_system w
      | Some p =>
          if Qlt_bool (soil_moisture_level p) target then
            if cancelRequested w then exec disable_system w
            else
              let w1 := set_clock (clock w + water_cycle_length (cfg w) + 60)
                          (set_plant (Some (after_cycle (cfg w) p)) w) in
              if Qle_bool target (soil_moisture_level (after_cycle (cfg w) p))
              then w1
              else exec disable_system
                     (exec (collect_data elapse (water_cycle_length (cfg w))
                              (soil_moisture_level (after_cycle (cfg w) p))) w1)
          else w
      end.
Proof.
  unfold water_plant, try_except.
  destruct (plant w) as [p | ] eqn:Hp.
  - destruct (Qlt_bool (soil_moisture_level p) target) eqn:Hlt.
    + destruct (cancelRequested w) eqn:Hc.
      * simpl. unfold bind, read_soil_moisture, get. rewrite Hp.
        unfold get_soil_moisture. rewrite Hlt, Hc. reflexivity.
      * rewrite (water_loop_first_iteration fuel target w p Hp Hlt Hc). cbv zeta.
        destruct (Qle_bool target (soil_moisture_level (after_cycle (cfg w) p))).
        -- reflexivity.
        -- unfold bind at 1.
           destruct (collect_data_outcome (water_cycle_length (cfg w))
                       (soil_moisture_level (after_cycle (cfg w) p))
                       (set_clock (clock w + water_cycle_length (cfg w) + 60)
                          (set_plant (Some (after_cycle (cfg w) p)) w)))
             as (w' & Hrun & _).
           unfold exec at 2. rewrite Hrun. reflexivity.
    + simpl. unfold bind, read_soil_moisture. rewrite Hp.
      unfold get_soil_moisture. rewrite Hlt. reflexivity.
  - simpl. unfold bind, read_soil_moisture. rewrite Hp. reflexivity.
Qed.

(** X5.  [water_plant] always returns, and it never runs a second cycle: the
    loop either stops in its first iteration or calls [collect_data], whose
    exception ends the watering.  So one unit of fuel is as good as any. *)
Theorem water_plant_returns_within_one_cycle (fuel : nat) (target : Q) (w : World) :
  (exists w' : World, water_plant elapse (S fuel) target w = Returns tt w') /\
  water_plant elapse (S fuel) target w = water_plant elapse 1 target w.
Proof.
  split.
  - eexists. apply water_plant_outcome.
  - rewrite (water_plant_outcome fuel), (water_plant_outcome 0). reflexivity.
Qed.

(** X6.  When the moisture is already at or above the target, [water_plant]
    returns at once and changes nothing: the pump is not switched on and the
    clock does not advance. *)
Theorem water_plant_target_already_met (fuel : nat) (target : Q) (w : World) (p : Plant) :
  plant w = Some p ->
  target <= soil_moisture_level p ->
  water_plant elapse (S fuel) target w = Returns tt w.
Proof.
  intros Hp Hge. apply Qlt_bool_false_iff in Hge.
  rewrite water_plant_outcome, Hp, Hge. reflexivity.
Qed.

(** X7.  With the cancellation flag set and the moisture below the target,
    [water_plant] disables the system without switching the pump on: the
    world it leaves is the one [disable_system] leaves. *)
Theorem water_plant_cancelled_before_a_cycle (fuel : nat) (target : Q) (w : World) (p : Plant) :
  plant w = Some p ->
  soil_moisture_level p < target ->
  cancelRequested w = true ->
  water_plant elapse (S fuel) target w = disable_system w /\
  status (exec disable_system w) = "DISABLED"%string /\
  option_map soil_moisture_level (plant (exec disable_system w))
  = Some (soil_moisture_level p) /\
  option_map (fun q => is_on (pump q)) (plant (exec disable_system w))
  = Some (is_on (pump p)).
Proof.
  intros Hp Hlt Hc. apply Qlt_bool_iff in Hlt.
  rewrite water_plant_outcome, Hp, Hlt, Hc.
  repeat split.
  - unfold exec, disable_system, modify. simpl. rewrite Hp. simpl.
    unfold cancel. destruct (is_on (pump p)); reflexivity.
  - unfold exec, disable_system, modify. simpl. rewrite Hp. simpl.
    unfold cancel. destruct (is_on (pump p)) eqn:E; simpl; rewrite ?E; reflexivity.
Qed.

(** X8.  When one cycle does not bring the moisture to the target, the
    watering does not continue: the call of [collect_data] raises, the
    handler runs, and [water_plant] returns with the system disabled. *)
Theorem water_plant_short_cycle_disables (fuel : nat) (target : Q) (w : World) (p : Plant) :
  plant w = Some p ->
  soil_moisture_level p < target ->
  cancelRequested w = false ->
  soil_moisture_level (after_cycle (cfg w) p) < target ->
  exists w' : World,
    water_plant elapse (S fuel) target w = Returns tt w' /\
    status w' = "DISABLED"%string /\
    enabled w' = Some false.
Proof.
  intros Hp Hlt Hc Hshort.
  apply Qlt_bool_iff in Hlt.
  assert (Hnot : Qle_bool target (soil_moisture_level (after_cycle (cfg w) p)) = false).
  { apply Qlt_bool_iff in Hshort. unfold Qlt_bool in Hshort.
    apply negb_true_iff in Hshort. exact Hshort. }
  rewrite water_plant_outcome, Hp, Hlt, Hc. cbv zeta. rewrite Hnot.
  eexists. split; [reflexivity | ].
  split; reflexivity.
Qed.

(** *** What watering and deciding never touch *)

(** The parts of the world outside the reach of a tick: the settings, the
    persistent store, the [system_enabled] attribute and the forecast
    service. *)
Definition untouched_by_a_tick (w : World) : Settings * Database * bool * Upstream :=
  (cfg w, db w, system_enabled w, upstream w).

(** The amount by which the collected count exceeds the number of samples
    held. *)
Definition count_surplus (w : World) : Z :=
  (optimisation_data_collected w - Z.of_nat (List.length (optimisation_data w)))%Z.

Lemma collect_data_keeps_untouched (wcl current_moisture : Q) :
  keeps untouched_by_a_tick (collect_data elapse wcl current_moisture).
Proof.
  intros w w' H.
  destruct (collect_data_outcome wcl current_moisture w)
    as (w0 & Hrun & Hcfg & Hse & _ & _ & _ & _ & Hdb & Hup & _).
  rewrite Hrun in H. inversion H. subst w0.
  unfold untouched_by_a_tick. rewrite Hcfg, Hse, Hdb, Hup. reflexivity.
Qed.

Lemma collect_data_keeps_count_surplus (wcl current_moisture : Q) :
  keeps count_surplus (collect_data elapse wcl current_moisture).
Proof.
  intros w w' H.
  destruct (collect_data_outcome wcl current_moisture w)
    as (w0 & Hrun & _ & _ & _ & _ & _ & _ & _ & _ & Hsurplus).
  rewrite Hrun in H. inversion H. subst w0. exact Hsurplus.
Qed.

(** A projection that ignores the plant, the clock, the status and the
    [enabled] attribute is kept by the watering procedure as soon as
    [collect_data] keeps it. *)
Lemma water_plant_keeps {F : Type} (f : World -> F) :
  (forall p w, f (set_plant p w) = f w) ->
  (forall t w, f (set_clock t w) = f w) ->
  (forall s w, f (set_status s w) = f w) ->
  (forall b w, f (set_enabled b w) = f w) ->
  (forall wcl m, keeps f (collect_data elapse wcl m)) ->
  forall (fuel : nat) (target : Q), keeps f (water_plant elapse fuel target).
Proof.
  intros Hplant Hclock Hstatus Henabled Hcollect fuel target.
  assert (Hsleep : forall d, keeps f (sleep elapse d)).
  { intros d. apply keeps_modify. intros w. rewrite Hclock, Hplant. reflexivity. }
  assert (Hdisable : keeps f disable_system).
  { apply keeps_modify. intros w. rewrite Hplant, Hstatus, Henabled. reflexivity. }
  assert (Hon : keeps f pump_turn_on).
  { intros w w' H. unfold pump_turn_on in H.
    destruct (plant w); inversion H; [apply Hplant | reflexivity]. }
  unfold water_plant. apply keeps_try_except; [ | intros _; exact Hdisable ].
  induction fuel as [| fuel IH]; simpl.
  - intros w w' H. discriminate H.
  - frame.
Qed.

Lemma monitor_plant_decide_keeps {F : Type} (f : World -> F) :
  (forall (fuel : nat) (target : Q), keeps f (water_plant elapse fuel target)) ->
  (forall r w, f (set_postponedWater r w) = f w) ->
  forall (fuel : nat) (now : Q) (sr ss : option Q) (rain prob : Q),
    keeps f (monitor_plant_decide elapse strptime_HM fuel now sr ss rain prob).
Proof.
  intros Hwater Hrecord fuel now sr ss rain prob.
  pose proof (time_lt_keeps f) as Hlt.
  pose proof (time_gt_keeps f) as Hgt.
  pose proof (parse_time_keeps strptime_HM f) as Hparse.
  assert (Hpost : forall m d, keeps f (postpone_or_bypass elapse fuel now m d)).
  { intros m d. unfold postpone_or_bypass.
    apply keeps_bind; [apply keeps_get | intros c].
    apply keeps_if; [apply Hwater | ].
    apply keeps_modify. intros w. apply Hrecord. }
  unfold monitor_plant_decide, operating_hours_management.
  frame.
Qed.

(** X9.  Neither the watering procedure nor the decision of a tick writes
    the settings, the persistent store, the [system_enabled] attribute or the
    forecast service: whatever way they end, these are as before.  In
    particular no calibration ratio is ever stored by a watering. *)
Theorem tick_leaves_store_and_settings_alone :
  (forall (fuel : nat) (target : Q),
     keeps untouched_by_a_tick (water_plant elapse fuel target)) /\
  (forall (fuel : nat) (now : Q) (sr ss : option Q) (rain prob : Q),
     keeps untouched_by_a_tick
       (monitor_plant_decide elapse strptime_HM fuel now sr ss rain prob)).
Proof.
  assert (Hwater : forall (fuel : nat) (target : Q),
             keeps untouched_by_a_tick (water_plant elapse fuel target)).
  { apply water_plant_keeps; try reflexivity. exact collect_data_keeps_untouched. }
  split; [exact Hwater | ].
  apply monitor_plant_decide_keeps; [exact Hwater | reflexivity].
Qed.

(** X10.  The collected count and the sample sequence move together: a
    watering or a decision that starts with the count equal to the number of
    samples held ends with the count equal to the number of samples held. *)
Theorem count_matches_samples_is_invariant
    (fuel : nat) (now : Q) (sr ss : option Q) (rain prob target : Q) (w w' : World) :
  optimisation_data_collected w = Z.of_nat (List.length (optimisation_data w)) ->
  final_world (water_plant elapse fuel target w) = Some w' \/
  final_world (monitor_plant_decide elapse strptime_HM fuel now sr ss rain prob w) = Some w' ->
  optimisation_data_collected w' = Z.of_nat (List.length (optimisation_data w')).
Proof.
  intros Hinv Hrun.
  assert (Hwater : forall (n : nat) (t : Q), keeps count_surplus (water_plant elapse n t)).
  { apply water_plant_keeps; try reflexivity. exact collect_data_keeps_count_surplus. }
  assert (Hsame : count_surplus w' = count_surplus w).
  { destruct Hrun as [H | H].
    - exact (Hwater _ _ _ _ H).
    - refine (monitor_plant_decide_keeps count_surplus Hwater _ _ _ _ _ _ _ _ _ H).
      reflexivity. }
  unfold count_surplus in Hsame. lia.
Qed.

(** *** The decision, outside its watering branches *)

(** Without a danger bypass the operating-hours block changes nothing: it
    falls through, returns, or raises on a bound it cannot compare. *)
Lemma operating_hours_management_without_danger
    (fuel : nat) (now : Q) (sr ss : option Q) (m d : Q) (w : World) :
  danger_triggered (cfg w) m d = false ->
  (exists b : bool,
     operating_hours_management elapse strptime_HM fuel now sr ss m d w = Returns b w) \/
  (exists e : exn,
     operating_hours_management elapse strptime_HM fuel now sr ss m d w = Raises e w).
Proof.
  intros Hno. unfold operating_hours_management, bind, get. rewrite Hno.
  destruct ((operating_hours_mode (cfg w) =? "auto")%string
            || (operating_hours_mode (cfg w) =? "manual")%string);
    [ | left; eexists; reflexivity ].
  destruct (operating_hours_mode (cfg w) =? "auto")%string.
  - unfold time_lt, time_gt.
    destruct sr as [t1 | ]; [ | right; eexists; reflexivity ].
    simpl. destruct (Qlt_bool now t1); [left; eexists; reflexivity | ].
    destruct ss as [t2 | ]; [ | right; eexists; reflexivity ].
    simpl. destruct (Qlt_bool t2 now); [left; eexists; reflexivity | ].
    destruct (operating_hours_mode (cfg w) =? "manual")%string;
      [ | left; eexists; reflexivity ].
    unfold parse_time.
    destruct (strptime_HM (operating_hours_start (cfg w)));
      [ | right; eexists; reflexivity ].
    simpl. destruct (Qlt_bool now q); [left; eexists; reflexivity | ].
    destruct (strptime_HM (operating_hours_end (cfg w)));
      [left | right]; eexists; reflexivity.
  - simpl.
    destruct (operating_hours_mode (cfg w) =? "manual")%string;
      [ | left; eexists; reflexivity ].
    unfold parse_time.
    destruct (strptime_HM (operating_hours_start (cfg w)));
      [ | right; eexists; reflexivity ].
    simpl. destruct (Qlt_bool now q); [left; eexists; reflexivity | ].
    destruct (strptime_HM (operating_hours_end (cfg w)));
      [left | right]; eexists; reflexivity.
Qed.

(** X11.  A tick with the moisture above the trigger level and no danger
    bypass changes nothing, in every mode, at every time and for every
    forecast: no watering, no postponement record, whether the tick returns
    or fails on a time bound. *)
Theorem monitor_plant_decide_idle_above_trigger
    (fuel : nat) (now : Q) (sr ss : option Q) (rain prob : Q) (w : World) (p : Plant) :
  let desired := operating_settings_desired_moisture_level (cfg w) in
  plant w = Some p ->
  danger_triggered (cfg w) (soil_moisture_level p) desired = false ->
  (operating_settings_water_threshold (cfg w) / 100) * desired < soil_moisture_level p ->
  final_world (monitor_plant_decide elapse strptime_HM fuel now sr ss rain prob w) = Some w.
Proof.
  intros desired Hp Hno Habove.
  apply Qlt_bool_iff in Habove. unfold Qlt_bool in Habove.
  apply negb_true_iff in Habove.
  unfold monitor_plant_decide, bind at 1 2.
  unfold read_soil_moisture at 1. rewrite Hp.
  unfold get at 1. unfold get_soil_moisture. fold desired.
  unfold bind at 1.
  destruct (operating_hours_management_without_danger fuel now sr ss
              (soil_moisture_level p) desired w Hno) as [[b Hb] | [e He]].
  - rewrite Hb. destruct b; [reflexivity | ].
    unfold bind, read_soil_moisture. rewrite Hp.
    unfold get_soil_moisture. rewrite Habove. reflexivity.
  - rewrite He. reflexivity.
Qed.

(** X12.  In auto mode, before sunrise or after sunset and without a danger
    bypass, the tick returns and changes nothing, however dry the soil and
    whatever the forecast: no watering and no postponement record. *)
Theorem monitor_plant_decide_skips_outside_daylight
    (fuel : nat) (now sunrise_at sunset_at rain prob : Q) (w : World) (p : Plant) :
  plant w = Some p ->
  operating_hours_mode (cfg w) = "auto"%string ->
  danger_triggered (cfg w) (soil_moisture_level p)
    (operating_settings_desired_moisture_level (cfg w)) = false ->
  now < sunrise_at \/ sunset_at < now ->
  monitor_plant_decide elapse strptime_HM fuel now (Some sunrise_at) (Some sunset_at)
    rain prob w = Returns tt w.
Proof.
  intros Hp Hmode Hno Hout.
  assert (Hgate : operating_hours_management elapse strptime_HM fuel now
                    (Some sunrise_at) (Some sunset_at) (soil_moisture_level p)
                    (operating_settings_desired_moisture_level (cfg w)) w
                  = Returns true w).
  { unfold operating_hours_management, bind, get. rewrite Hmode, Hno. simpl.
    destruct (Qlt_bool now sunrise_at) eqn:E1; [reflexivity | ].
    destruct Hout as [H | H].
    - apply Qlt_bool_iff in H. congruence.
    - apply Qlt_bool_iff in H. simpl. rewrite H. reflexivity. }
  unfold monitor_plant_decide, bind at 1 2.
  unfold read_soil_moisture at 1. rewrite Hp.
  unfold get at 1. unfold get_soil_moisture.
  unfold bind at 1. rewrite Hgate. reflexivity.
Qed.

(** X13.  With an operating-hours mode other than "auto" and "manual" the
    whole block of lines 243-257 is skipped, the danger override with it: a
    tick with the moisture above the trigger level does nothing even when
    the danger conditions hold, and with weather detection off a tick at or
    below the trigger level waters to the trigger level, not to the bypass
    percentage. *)
Theorem monitor_plant_decide_other_mode_has_no_override
    (fuel : nat) (now : Q) (sr ss : option Q) (rain prob : Q) (w : World) (p : Plant) :
  let desired := operating_settings_desired_moisture_level (cfg w) in
  let triggerLevel := (operating_settings_water_threshold (cfg w) / 100) * desired in
  plant w = Some p ->
  operating_hours_mode (cfg w) <> "auto"%string ->
  operating_hours_mode (cfg w) <> "manual"%string ->
  (triggerLevel < soil_moisture_level p ->
   monitor_plant_decide elapse strptime_HM fuel now sr ss rain prob w = Returns tt w) /\
  (soil_moisture_level p <= triggerLevel ->
   weather_detection_enabled (cfg w) = false ->
   monitor_plant_decide elapse strptime_HM fuel now sr ss rain prob w
   = water_plant elapse fuel triggerLevel w).
Proof.
  intros desired triggerLevel Hp Hauto Hmanual.
  apply String.eqb_neq in Hauto. apply String.eqb_neq in Hmanual.
  assert (Hrun :
    monitor_plant_decide elapse strptime_HM fuel now sr ss rain prob w
    = bind read_soil_moisture (fun moisture =>
        if Qle_bool moisture triggerLevel then
          if weather_detection_enabled (cfg w) then
            if (weather_detection_mode (cfg w) =? "AND")%string then
              if Qle_bool (weather_detection_postpone_mm (cfg w)) rain &&
                 Qle_bool (weather_detection_postpone_percentage (cfg w)) prob
              then postpone_or_bypass elapse fuel now (soil_moisture_level p) desired
              else water_plant elapse fuel triggerLevel
            else if (weather_detection_mode (cfg w) =? "OR")%string then
              if Qle_bool (weather_detection_postpone_mm (cfg w)) rain ||
                 Qle_bool (weather_detection_postpone_percentage (cfg w)) prob
              then postpone_or_bypass elapse fuel now (soil_moisture_level p) desired
              else water_plant elapse fuel triggerLevel
            else water_plant elapse fuel triggerLevel
          else water_plant elapse fuel triggerLevel
        else ret tt) w).
  { unfold monitor_plant_decide, bind at 1 2.
    unfold read_soil_moisture at 1. rewrite Hp.
    unfold get at 1. unfold get_soil_moisture.
    unfold operating_hours_management. unfold bind at 1 2. unfold get at 1.
    rewrite Hauto, Hmanual. reflexivity. }
  rewrite Hrun. unfold bind, read_soil_moisture. rewrite Hp. unfold get_soil_moisture.
  split.
  - intros Habove. apply Qlt_bool_iff in Habove. unfold Qlt_bool in Habove.
    apply negb_true_iff in Habove. rewrite Habove. reflexivity.
  - intros Hbelow Hoff. apply Qle_bool_iff in Hbelow. rewrite Hbelow, Hoff. reflexivity.
Qed.

(** *** The monitor loop, enabling and disabling *)

(** X14.  The monitor loop never completes a tick.  Whatever the world, one
    pass of [run_loop] ends in one of three ways, each leaving the world as
    it was: [AttributeError] when [enabled] was never assigned, a return
    after zero ticks when [enabled] is false, and the [TypeError] of
    [monitor_plant] when [enabled] is true. *)
Theorem run_loop_never_completes_a_tick (fuel : nat) (w : World) :
  run_loop elapse strptime_HM (S fuel) w
  = match enabled w with
    | None => Raises AttributeError w
    | Some false => Returns O w
    | Some true => Raises TypeError w
    end.
Proof.
  simpl. unfold bind, read_enabled.
  destruct (enabled w) as [[|] | ]; reflexivity.
Qed.

Lemma cancel_idempotent (p : Plant) : cancel (cancel p) = cancel p.
Proof.
  unfold cancel. destruct (is_on (pump p)) eqn:E; simpl; rewrite ?E; reflexivity.
Qed.

(** X15.  [disable_system] is idempotent and never fails: calling it twice
    leaves exactly the world one call leaves, with status "DISABLED" and
    [enabled] false. *)
Theorem disable_system_idempotent (w : World) :
  bind disable_system (fun _ => disable_system) w = disable_system w /\
  exists w' : World,
    disable_system w = Returns tt w' /\
    status w' = "DISABLED"%string /\ enabled w' = Some false.
Proof.
  split.
  - unfold bind, disable_system, modify. simpl.
    destruct (plant w) as [p | ]; simpl; [rewrite cancel_idempotent | ]; reflexivity.
  - eexists. split; [reflexivity | split; reflexivity].
Qed.

(** X16.  [initialize] over a fresh [System].  With a settings row every
    setting is the row's and [system_enabled] is the row's flag; without one
    the defaults stay and a row marked disabled is created.  If the system is
    then enabled, the status is "IDLE", [enabled] is true, and the monitor
    task [initialize] starts ends in [TypeError] at its first tick; otherwise
    the status is "DISABLED" and the attribute [enabled] is still
    unassigned.  In every case the plant exists, at the desired soil moisture
    of the settings in force, with its pump off. *)
Theorem initialize_outcome
    (d : Database) (u : Upstream) (now : Q) (row : Settings) (fuel : nat) :
  let w' := exec (initialize row) (System_init d u now) in
  initialize row (System_init d u now) = Returns tt w' /\
  plant w' = Some (Plant_init (desired_soil_moisture (cfg w'))) /\
  (forall b : bool, settings_system_enabled d = Some b ->
   cfg w' = row /\ system_enabled w' = b /\ settings_system_enabled (db w') = Some b) /\
  (settings_system_enabled d = None ->
   cfg w' = default_settings /\ system_enabled w' = false /\
   settings_system_enabled (db w') = Some false) /\
  (settings_system_enabled d = Some true ->
   status w' = "IDLE"%string /\ enabled w' = Some true /\
   run_loop elapse strptime_HM (S fuel) w' = Raises TypeError w') /\
  (settings_system_enabled d <> Some true ->
   status w' = "DISABLED"%string /\ enabled w' = None).
Proof.
  cbv zeta. split; [reflexivity | ].
  unfold exec, initialize, modify. simpl.
  destruct (settings_system_enabled d) as [[|] | ] eqn:Hrow; simpl;
    (split; [reflexivity | ]);
    (split; [intros b Hb | ]);
    try (split; [intros H | ]);
    try (split; intros H).
  all: try discriminate.
  all: try (exfalso; congruence).
  - assert (E : b = true) by congruence. subst b. repeat split. exact Hrow.
  - repeat split.
  - assert (E : b = false) by congruence. subst b. repeat split. exact Hrow.
  - repeat split.
  - repeat split.
  - repeat split.
Qed.

End Coverage.

(** ** Weather.py: the cache *)

(** X17.  A refresh that cannot complete (no settings row, or one of the two
    forecast replies missing) returns [None] and leaves the world, and with
    it whatever record the cache held, untouched. *)
Theorem fetch_and_store_weather_data_failure (w : World) :
  settings_system_enabled (db w) = None \/
  rainfall_reply (upstream w) = None \/
  sunrisesunset_reply (upstream w) = None ->
  fetch_and_store_weather_data w = Returns None w.
Proof.
  intros H. unfold fetch_and_store_weather_data.
  destruct (settings_system_enabled (db w)); [ | reflexivity ].
  destruct (rainfall_reply (upstream w)) as [[r p] | ];
    destruct (sunrisesunset_reply (upstream w)) as [[sr ss] | ];
    try reflexivity.
  destruct H as [H | [H | H]]; discriminate H.
Qed.

(** X18.  A cached record at most one hour old is served as it is: both
    getters return its values and leave the world untouched, whatever the
    forecast service would answer. *)
Theorem fresh_cache_is_served (w : World) (r : WeatherData) :
  weatherdata (db w) = Some r ->
  clock w - createdAt r <= 3600 ->
  get_precipitation_data w
  = Returns (PyTuple2 (mmOfRainfall r) (rainfallProbability r)) w /\
  get_sunrise_sunset_times w
  = Returns (PyTuple2 (Some (sunrise r)) (Some (sunset r))) w.
Proof.
  intros Hc Hfresh. apply Qlt_bool_false_iff in Hfresh.
  unfold get_precipitation_data, get_sunrise_sunset_times, fresh_weather_data, bind, get.
  rewrite Hc, Hfresh. split; reflexivity.
Qed.

(** X19.  A cached record older than one hour is not a fallback: when the
    refresh fails, [get_precipitation_data] returns [None] and
    [get_sunrise_sunset_times] the pair of [None]s, although the stale record
    is still in the cache afterwards. *)
Theorem stale_cache_is_not_a_fallback (w : World) (r : WeatherData) :
  weatherdata (db w) = Some r ->
  3600 < clock w - createdAt r ->
  rainfall_reply (upstream w) = None \/ sunrisesunset_reply (upstream w) = None ->
  get_precipitation_data w = Returns PyNone w /\
  get_sunrise_sunset_times w = Returns (PyTuple2 None None) w /\
  weatherdata (db w) = Some r.
Proof.
  intros Hc Hstale Hdown. apply Qlt_bool_iff in Hstale.
  assert (Hfail : fetch_and_store_weather_data w = Returns None w).
  { unfold fetch_and_store_weather_data.
    destruct (settings_system_enabled (db w)); [ | reflexivity ].
    destruct Hdown as [H | H]; rewrite H; [reflexivity | ].
    destruct (rainfall_reply (upstream w)) as [[x1 x2] | ]; reflexivity. }
  unfold get_precipitation_data, get_sunrise_sunset_times, fresh_weather_data, bind, get.
  rewrite Hc, Hstale, Hfail. repeat split.
Qed.

(** The record a successful refresh stores. *)
Definition refreshed_record (w : World) (rain sun : Q * Q) : WeatherData :=
  {| mmOfRainfall := fst rain;
     rainfallProbability := snd rain;
     sunrise := fst sun;
     sunset := snd sun;
     createdAt := clock w |}.

(** X20.  Refresh, then read.  With a settings row, both forecast replies and
    an empty cache, [get_precipitation_data] returns the rainfall reply and
    leaves a world whose cache holds the record of both replies stamped with
    the current time; in that world [get_sunrise_sunset_times] returns the
    sun reply from the cache and changes nothing. *)
Theorem refresh_then_read (w : World) (row : bool) (rain sun : Q * Q) :
  weatherdata (db w) = None ->
  settings_system_enabled (db w) = Some row ->
  rainfall_reply (upstream w) = Some rain ->
  sunrisesunset_reply (upstream w) = Some sun ->
  exists w' : World,
    get_precipitation_data w = Returns (PyTuple2 (fst rain) (snd rain)) w' /\
    weatherdata (db w') = Some (refreshed_record w rain sun) /\
    get_sunrise_sunset_times w' = Returns (PyTuple2 (Some (fst sun)) (Some (snd sun))) w'.
Proof.
  intros Hc Hrow Hrain Hsun.
  destruct rain as [r p]. destruct sun as [sr ss].
  unfold get_precipitation_data, fresh_weather_data, bind, get,
    fetch_and_store_weather_data.
  rewrite Hc, Hrow, Hrain, Hsun.
  eexists. split; [reflexivity | ]. split; [reflexivity | ].
  unfold get_sunrise_sunset_times, fresh_weather_data, bind, get. simpl.
  assert (Hnow : Qlt_bool 3600 (clock w - clock w) = false).
  { apply Qlt_bool_false_iff.
    assert (E : clock w - clock w == 0) by ring.
    rewrite E. discriminate. }
  rewrite Hnow. reflexivity.
Qed.

(** X21.  The two getters always agree.  In every world they leave the same
    world behind, and either both report that no weather data is available
    ([None] and the pair of [None]s), or both return the fields of the same
    record, which is the one the cache holds afterwards. *)
Theorem weather_getters_agree (w : World) :
  exists w' : World,
    (get_precipitation_data w = Returns PyNone w' /\
     get_sunrise_sunset_times w = Returns (PyTuple2 None None) w') \/
    (exists r : WeatherData,
       get_precipitation_data w
       = Returns (PyTuple2 (mmOfRainfall r) (rainfallProbability r)) w' /\
       get_sunrise_sunset_times w
       = Returns (PyTuple2 (Some (sunrise r)) (Some (sunset r))) w' /\
       weatherdata (db w') = Some r).
Proof.
  unfold get_precipitation_data, get_sunrise_sunset_times.
  assert (H : exists w', (fresh_weather_data w = Returns None w') \/
                         (exists r, fresh_weather_data w = Returns (Some r) w' /\
                                    weatherdata (db w') = Some r)).
  { unfold fresh_weather_data, bind, get, fetch_and_store_weather_data.
    destruct (weatherdata (db w)) as [r | ] eqn:Hc.
    - destruct (Qlt_bool 3600 (clock w - createdAt r)).
      + destruct (settings_system_enabled (db w));
          [ | exists w; left; reflexivity ].
        destruct (rainfall_reply (upstream w)) as [[x1 x2] | ];
          destruct (sunrisesunset_reply (upstream w)) as [[x3 x4] | ];
          try (exists w; left; reflexivity).
        eexists. right. eexists. split; reflexivity.
      + exists w. right. exists r. split; [reflexivity | exact Hc].
    - destruct (settings_system_enabled (db w));
        [ | exists w; left; reflexivity ].
      destruct (rainfall_reply (upstream w)) as [[x1 x2] | ];
        destruct (sunrisesunset_reply (upstream w)) as [[x3 x4] | ];
        try (exists w; left; reflexivity).
      eexists. right. eexists. split; reflexivity. }
  destruct H as (w' & [Hnone | (r & Hsome & Hcache)]); exists w'.
  - left. unfold bind. rewrite Hnone. split; reflexivity.
  - right. exists r. unfold bind. rewrite Hsome. repeat split. exact Hcache.
Qed.

(** ** Plant.py: depletion and pump runs *)

From Stdlib Require Import Lqa.

Lemma decrease_soil_moisture_tick_rate (p : Plant) :
  moisture_depletion_rate (decrease_soil_moisture_tick p) = moisture_depletion_rate p.
Proof. reflexivity. Qed.

Lemma decrease_soil_moisture_tick_not_above (p : Plant) :
  0 <= moisture_depletion_rate p ->
  0 <= soil_moisture_level p ->
  soil_moisture_level (decrease_soil_moisture_tick p) <= soil_moisture_level p.
Proof.
  intros Hr Hl. unfold decrease_soil_moisture_tick. simpl.
  destruct (Qlt_bool (soil_moisture_level p - moisture_depletion_rate p) 0).
  - exact Hl.
  - lra.
Qed.

(** X22.  Depletion never leaves the range it starts in: with a depletion
    rate that is not negative and a moisture that is not negative, after any
    number of depletion ticks the moisture is between 0 and the moisture it
    started from. *)
Theorem depletion_stays_in_range (p : Plant) (n : nat) :
  0 <= moisture_depletion_rate p ->
  0 <= soil_moisture_level p ->
  0 <= soil_moisture_level (Nat.iter n decrease_soil_moisture_tick p) /\
  soil_moisture_level (Nat.iter n decrease_soil_moisture_tick p) <= soil_moisture_level p.
Proof.
  intros Hr Hl.
  assert (Hrate : forall k : nat,
            moisture_depletion_rate (Nat.iter k decrease_soil_moisture_tick p)
            = moisture_depletion_rate p).
  { induction k as [| k IH]; simpl; [reflexivity | exact IH]. }
  induction n as [| n [Hlow Hhigh]]; simpl.
  - split; [exact Hl | apply Qle_refl].
  - split.
    + apply decrease_soil_moisture_tick_floor.
    + apply Qle_trans with (soil_moisture_level (Nat.iter n decrease_soil_moisture_tick p)).
      * apply decrease_soil_moisture_tick_not_above; [rewrite Hrate; exact Hr | exact Hlow].
      * exact Hhigh.
Qed.

(** X23.  Cancellation takes effect at the next round of the pump run: after
    [cancel] on a running pump, the round adds no water and switches the pump
    off.  A [turn_on] in between discards the request: the round then adds
    water as if nothing had been cancelled. *)
Theorem cancel_stops_the_next_round (p : Plant) :
  is_on (pump p) = true ->
  soil_moisture_level (run_pump_round (cancel p)) = soil_moisture_level p /\
  is_on (pump (run_pump_round (cancel p))) = false /\
  run_pump_round (turn_on (cancel p)) = add_water (turn_on p).
Proof.
  intros Hon. unfold cancel. rewrite Hon.
  unfold run_pump_round. simpl. rewrite ?Hon. simpl. repeat split.
Qed.

Lemma run_pump_round_below (t : Q) (q : Plant) :
  1 < t -> soil_moisture_level q < t -> soil_moisture_level (run_pump_round q) < t.
Proof.
  intros Ht Hq. unfold run_pump_round, add_water.
  destruct (is_on (pump q)); [ | exact Hq ].
  destruct (cancel_requested (pump q)); [exact Hq | ].
  simpl.
  destruct (Qlt_bool 1 (soil_moisture_level q + (1 # 2))) eqn:E; [exact Ht | ].
  apply Qlt_bool_false_iff in E. lra.
Qed.

Lemma run_pump_rounds_below (t : Q) (n : nat) (q : Plant) :
  1 < t -> soil_moisture_level q < t ->
  soil_moisture_level (Nat.iter n run_pump_round q) < t.
Proof.
  intros Ht Hq. induction n as [| n IH]; simpl.
  - exact Hq.
  - apply run_pump_round_below; assumption.
Qed.

Lemma pump_thread_schedule_below (t d : Q) (q : Plant) :
  1 < t -> soil_moisture_level q < t ->
  soil_moisture_level (pump_thread_schedule d q) < t.
Proof.
  intros Ht Hq. unfold pump_thread_schedule.
  destruct (is_on (pump q)); [ | exact Hq ].
  unfold turn_off. simpl. apply run_pump_rounds_below; assumption.
Qed.

(** X24.  A pump run cannot lift the moisture to a target above 1: started
    below such a target, the moisture is still below it after any number of
    rounds, and a run of at least one round from a moisture of 1/2 or more,
    however high, ends at exactly 1. *)
Theorem pump_run_never_exceeds_one (p : Plant) (n : nat) (target : Q) :
  (1 < target -> soil_moisture_level p < target ->
   soil_moisture_level (Nat.iter n run_pump_round (turn_on p)) < target) /\
  ((1 # 2) <= soil_moisture_level p ->
   soil_moisture_level (Nat.iter (S n) run_pump_round (turn_on p)) == 1).
Proof.
  split.
  - intros Ht Hp. apply run_pump_rounds_below; assumption.
  - intros Hp.
    assert (Hinv : forall k : nat,
              is_on (pump (Nat.iter k run_pump_round (turn_on p))) = true /\
              cancel_requested (pump (Nat.iter k run_pump_round (turn_on p))) = false /\
              (1 # 2) <= soil_moisture_level (Nat.iter k run_pump_round (turn_on p))).
    { induction k as [| k (Hon & Hc & Hl)].
      - simpl. repeat split. exact Hp.
      - change (Nat.iter (S k) run_pump_round (turn_on p))
          with (run_pump_round (Nat.iter k run_pump_round (turn_on p))).
        set (q := Nat.iter k run_pump_round (turn_on p)) in *.
        unfold run_pump_round, add_water. rewrite Hon, Hc. simpl.
        repeat split; try assumption.
        destruct (Qlt_bool 1 (soil_moisture_level q + (1 # 2))) eqn:E;
          [discriminate | lra]. }
    destruct (Hinv n) as (Hon & Hc & Hl).
    change (Nat.iter (S n) run_pump_round (turn_on p))
      with (run_pump_round (Nat.iter n run_pump_round (turn_on p))).
    set (q := Nat.iter n run_pump_round (turn_on p)) in *.
    unfold run_pump_round, add_water. rewrite Hon, Hc. simpl.
    destruct (Qlt_bool 1 (soil_moisture_level q + (1 # 2))) eqn:E; [reflexivity | ].
    apply Qlt_bool_false_iff in E. lra.
Qed.

(** X25.  Under the pump schedule a watering towards any target above 1
    cannot succeed: whenever the moisture is below such a target,
    [water_plant] returns with the system disabled, after at most one
    cycle. *)
Theorem water_plant_above_one_disables (fuel : nat) (target : Q) (w : World) (p : Plant) :
  plant w = Some p ->
  1 < target ->
  soil_moisture_level p < target ->
  exists w' : World,
    water_plant pump_thread_schedule (S fuel) target w = Returns tt w' /\
    status w' = "DISABLED"%string /\
    enabled w' = Some false.
Proof.
  intros Hp Ht Hlt.
  assert (Hshort : Qle_bool target
                     (soil_moisture_level (after_cycle pump_thread_schedule (cfg w) p))
                   = false).
  { assert (H : soil_moisture_level (after_cycle pump_thread_schedule (cfg w) p) < target).
    { unfold after_cycle.
      apply pump_thread_schedule_below; [exact Ht | ].
      apply pump_thread_schedule_below; [exact Ht | exact Hlt]. }
    apply Qlt_bool_iff in H. unfold Qlt_bool in H.
    apply negb_true_iff in H. exact H. }
  apply Qlt_bool_iff in Hlt.
  rewrite water_plant_outcome, Hp, Hlt. cbv zeta. rewrite Hshort.
  destruct (cancelRequested w);
    (eexists; split; [reflexivity | split; reflexivity]).
Qed.

(** ** App.py: manual operating hours *)

Lemma digit_of_range (c : Ascii.ascii) (n : Z) :
  digit_of c = Some n -> (0 <= n <= 9)%Z.
Proof.
  unfold digit_of.
  destruct ((0 <=? Z.of_nat (nat_of_ascii c) - 48)
            && (Z.of_nat (nat_of_ascii c) - 48 <=? 9))%Z eqn:E; [ | discriminate ].
  intros H. inversion H. subst n.
  apply andb_true_iff in E. destruct E as [E1 E2].
  apply Z.leb_le in E1. apply Z.leb_le in E2. lia.
Qed.

Lemma number_of_nonnegative (s : string) (n : Z) :
  number_of s = Some n -> (0 <= n)%Z.
Proof.
  unfold number_of.
  destruct s as [| a [| b [| c rest]]]; try discriminate.
  - intros H. apply digit_of_range in H. lia.
  - destruct (digit_of a) as [x | ] eqn:Ea; [ | discriminate ].
    destruct (digit_of b) as [y | ] eqn:Eb; [ | discriminate ].
    intros H. apply digit_of_range in Ea. apply digit_of_range in Eb.
    assert (E : (10 * x + y)%Z = n) by congruence.
    lia.
Qed.

(** A time of day read by [strptime_clock] lies within the first day of the
    clock. *)
Lemma strptime_clock_within_first_day (s : string) (t : Q) :
  strptime_clock s = Some t -> 0 <= t /\ t < 86400.
Proof.
  unfold strptime_clock.
  destruct (split_at_colon s) as [[h m] | ]; [ | discriminate ].
  destruct (number_of h) as [hh | ] eqn:Eh; [ | discriminate ].
  destruct (number_of m) as [mm | ] eqn:Em; [ | discriminate ].
  destruct ((hh <? 24) && (mm <? 60))%Z eqn:E; [ | discriminate ].
  intros H.
  assert (Et : inject_Z (3600 * hh + 60 * mm) = t) by congruence.
  rewrite <- Et. clear H Et.
  apply andb_true_iff in E. destruct E as [E1 E2].
  apply Z.ltb_lt in E1. apply Z.ltb_lt in E2.
  apply number_of_nonnegative in Eh. apply number_of_nonnegative in Em.
  unfold Qle, Qlt, inject_Z. cbn [Qnum Qden]. lia.
Qed.

(** X26.  In manual mode the hours never open.  [strptime] with the format
    '%H:%M' gives a time of 1 January 1900, so at any current time from
    2 January 1900 on the comparison with the end of the operating hours
    succeeds: without a danger bypass the tick returns and changes nothing
    (or raises [ValueError] on a bound that does not parse), however dry the
    soil, whatever the bounds and the forecast. *)
Theorem manual_mode_never_opens
    (elapse : Q -> Plant -> Plant) (fuel : nat) (now : Q) (sr ss : option Q)
    (rain prob : Q) (w : World) (p : Plant) :
  plant w = Some p ->
  operating_hours_mode (cfg w) = "manual"%string ->
  danger_triggered (cfg w) (soil_moisture_level p)
    (operating_settings_desired_moisture_level (cfg w)) = false ->
  86400 <= now ->
  monitor_plant_decide elapse strptime_clock fuel now sr ss rain prob w
  = match strptime_clock (operating_hours_start (cfg w)),
          strptime_clock (operating_hours_end (cfg w)) with
    | Some _, Some _ => Returns tt w
    | _, _ => Raises ValueError w
    end.
Proof.
  intros Hp Hmode Hno Hnow.
  unfold monitor_plant_decide, bind at 1 2.
  unfold read_soil_moisture at 1. rewrite Hp.
  unfold get at 1. unfold get_soil_moisture.
  unfold bind at 1.
  unfold operating_hours_management, bind, get. rewrite Hmode, Hno. simpl.
  unfold parse_time.
  destruct (strptime_clock (operating_hours_start (cfg w))) as [opening | ] eqn:Eo;
    [ | reflexivity ].
  simpl.
  destruct (strptime_clock_within_first_day _ _ Eo) as [_ Ho].
  assert (H1 : Qlt_bool now opening = false).
  { apply Qlt_bool_false_iff. lra. }
  rewrite H1.
  destruct (strptime_clock (operating_hours_end (cfg w))) as [closing | ] eqn:Ec;
    [ | reflexivity ].
  simpl.
  destruct (strptime_clock_within_first_day _ _ Ec) as [_ Hc].
  assert (H2 : Qlt_bool closing now = true).
  { apply Qlt_bool_iff. lra. }
  rewrite H2. reflexivity.
Qed.

(** ** Weather.py: [calculate_rainfall] *)

Lemma entries_after_app (now : Q) (a b : list (list RainfallEntry)) :
  entries_after now (a ++ b) = entries_after now a ++ entries_after now b.
Proof. unfold entries_after. rewrite concat_app, filter_app. reflexivity. Qed.

Lemma entries_after_past (now : Q) (past : list (list RainfallEntry)) :
  Forall (Forall (fun entry => dateTime entry <= now)) past ->
  entries_after now past = [].
Proof.
  unfold entries_after. induction past as [| day past IH]; intros H.
  - reflexivity.
  - inversion H as [| ? ? Hday Hrest]. subst.
    simpl. rewrite filter_app, (IH Hrest), app_nil_r.
    clear IH H Hrest. induction day as [| entry day IHd]; [reflexivity | ].
    inversion Hday as [| ? ? He Hd]. subst.
    simpl. apply Qlt_bool_false_iff in He. rewrite He. exact (IHd Hd).
Qed.

(** X27.  Entries at or before the current time have no part in the
    averages: a forecast made of such entries only (or of no entry at all)
    gives (0, 0), and adding days of such entries before or after a forecast
    does not change its result. *)
Theorem calculate_rainfall_ignores_the_past
    (now : Q) (past days : list (list RainfallEntry)) :
  Forall (Forall (fun entry => dateTime entry <= now)) past ->
  calculate_rainfall now past = (0, 0) /\
  calculate_rainfall now (past ++ days) = calculate_rainfall now days /\
  calculate_rainfall now (days ++ past) = calculate_rainfall now days.
Proof.
  intros H. unfold calculate_rainfall.
  rewrite !entries_after_app, (entries_after_past now past H), app_nil_r.
  repeat split.
Qed.

Lemma fold_plus_nonnegative (l : list Q) (a : Q) :
  0 <= a -> Forall (fun x => 0 <= x) l -> 0 <= fold_left Qplus l a.
Proof.
  revert a. induction l as [| x l IH]; intros a Ha H.
  - exact Ha.
  - inversion H as [| ? ? Hx Hl]. subst. simpl. apply IH; [lra | exact Hl].
Qed.

Lemma py_mean_nonnegative (x : Q) (l : list Q) :
  Forall (fun y => 0 <= y) (x :: l) ->
  0 <= py_sum (x :: l) / inject_Z (Z.of_nat (List.length (x :: l))).
Proof.
  intros H.
  assert (Hsum : 0 <= py_sum (x :: l)).
  { unfold py_sum. apply fold_plus_nonnegative; [apply Qle_refl | exact H]. }
  assert (Hpos : 0 < inject_Z (Z.of_nat (List.length (x :: l)))).
  { unfold Qlt. simpl. lia. }
  apply Qle_shift_div_l; [exact Hpos | ]. lra.
Qed.

(** X28.  The averages of [calculate_rainfall] are never negative when the
    entries they are taken over are not: if every entry after the current
    time has a probability and two range ends that are at least 0, so are
    the average amount and the average probability.  (No upper bound is
    stated: the sums and quotients of lines 38-39 are rounded, and a rounded
    mean can exceed every entry.) *)
Theorem calculate_rainfall_never_negative
    (now : Q) (days : list (list RainfallEntry)) :
  Forall (fun entry =>
            0 <= probability entry /\ 0 <= startRange entry /\ 0 <= endRange entry)
         (entries_after now days) ->
  0 <= fst (calculate_rainfall now days) /\ 0 <= snd (calculate_rainfall now days).
Proof.
  intros H. unfold calculate_rainfall.
  destruct (entries_after now days) as [| entry kept] eqn:E.
  - simpl. split; apply Qle_refl.
  - cbv zeta.
    assert (Hamount : Forall (fun y => 0 <= y)
                        (map (fun e => (startRange e + endRange e) / 2) (entry :: kept))).
    { apply Forall_map. eapply Forall_impl; [ | exact H].
      intros e (_ & H1 & H2). simpl.
      apply Qle_shift_div_l; [reflexivity | lra]. }
    assert (Hprob : Forall (fun y => 0 <= y) (map probability (entry :: kept))).
    { apply Forall_map. eapply Forall_impl; [ | exact H].
      intros e (Hp & _). exact Hp. }
    simpl map in *.
    split.
    + exact (py_mean_nonnegative _ _ Hamount).
    + exact (py_mean_nonnegative _ _ Hprob).
Qed.

(** ** Instances of the properties above *)

(** A started system with no sample yet. *)
Lemma evaluate_optimisation_empty_witness :
  optimisation_data (started true) = [] /\
  evaluate_optimisation (started true) = Raises ZeroDivisionError (started true).
Proof.
  split; [reflexivity | ].
  exact (evaluate_optimisation_empty (started true) eq_refl).
Defined.

(** A call of [collect_data] while the pump, switched on at moisture 0.2, is
    still running: the reading rises to 1 during the call. *)
Lemma collect_data_appends_its_own_measurement_witness :
  let p := turn_on (Plant_init (2 # 10)) in
  let w := set_plant (Some p) (started true) in
  0 < soil_moisture_level (pump_thread_schedule 60 (pump_thread_schedule 5 p))
      - soil_moisture_level p /\
  exists w' : World,
    collect_data pump_thread_schedule 5 0 w = Raises AttributeError w' /\
    optimisation_data w' =
      optimisation_data w ++
      [5 / (soil_moisture_level (pump_thread_schedule 60 (pump_thread_schedule 5 p))
            - soil_moisture_level p)] /\
    optimisation_data_collected w' = (optimisation_data_collected w + 1)%Z /\
    db w' = db w.
Proof.
  assert (H : 0 < soil_moisture_level
                    (pump_thread_schedule 60
                       (pump_thread_schedule 5 (turn_on (Plant_init (2 # 10)))))
                  - soil_moisture_level (turn_on (Plant_init (2 # 10)))).
  { apply Qlt_bool_iff. reflexivity. }
  split; [exact H | ].
  exact (collect_data_appends_its_own_measurement pump_thread_schedule 5 0
           (set_plant (Some (turn_on (Plant_init (2 # 10)))) (started true))
           (turn_on (Plant_init (2 # 10))) eq_refl H).
Defined.

(** Moisture 50 against a target of 40. *)
Lemma water_plant_target_already_met_witness :
  let w := started_with_moisture true 50 in
  40 <= soil_moisture_level (Plant_init 50) /\
  water_plant pump_thread_schedule 1 40 w = Returns tt w.
Proof.
  assert (H : 40 <= soil_moisture_level (Plant_init 50)).
  { apply Qle_bool_iff. reflexivity. }
  split; [exact H | ].
  exact (water_plant_target_already_met pump_thread_schedule 0 40
           (started_with_moisture true 50) (Plant_init 50) eq_refl H).
Defined.

(** A system whose cancellation flag is set, at moisture 5 with target 20. *)
Definition cancel_requested_world : World :=
  mkWorld default_settings true (Some true) true "IDLE"
    (Some (Plant_init 5)) not_postponed [] 0%Z (store true) service_down 43200.

Lemma water_plant_cancelled_before_a_cycle_witness :
  soil_moisture_level (Plant_init 5) < 20 /\
  water_plant pump_thread_schedule 1 20 cancel_requested_world
  = disable_system cancel_requested_world.
Proof.
  assert (H : soil_moisture_level (Plant_init 5) < 20).
  { apply Qlt_bool_iff. reflexivity. }
  split; [exact H | ].
  exact (proj1 (water_plant_cancelled_before_a_cycle pump_thread_schedule 0 20
                  cancel_requested_world (Plant_init 5) eq_refl H eq_refl)).
Defined.

(** Moisture 5, target 20: one cycle leaves the reading at 1. *)
Lemma water_plant_short_cycle_disables_witness :
  let w := started_with_moisture true 5 in
  soil_moisture_level (after_cycle pump_thread_schedule (cfg w) (Plant_init 5)) < 20 /\
  exists w' : World,
    water_plant pump_thread_schedule 1 20 w = Returns tt w' /\
    status w' = "DISABLED"%string /\ enabled w' = Some false.
Proof.
  assert (H0 : soil_moisture_level (Plant_init 5) < 20).
  { apply Qlt_bool_iff. reflexivity. }
  assert (H1 : soil_moisture_level
                 (after_cycle pump_thread_schedule
                    (cfg (started_with_moisture true 5)) (Plant_init 5)) < 20).
  { apply Qlt_bool_iff. reflexivity. }
  split; [exact H1 | ].
  exact (water_plant_short_cycle_disables pump_thread_schedule 0 20
           (started_with_moisture true 5) (Plant_init 5) eq_refl H0 eq_refl H1).
Defined.

Lemma water_plant_above_one_disables_witness :
  let w := started_with_moisture true 5 in
  1 < 20 /\ soil_moisture_level (Plant_init 5) < 20 /\
  exists w' : World,
    water_plant pump_thread_schedule 3 20 w = Returns tt w' /\
    status w' = "DISABLED"%string /\ enabled w' = Some false.
Proof.
  assert (H0 : 1 < 20) by reflexivity.
  assert (H1 : soil_moisture_level (Plant_init 5) < 20).
  { apply Qlt_bool_iff. reflexivity. }
  split; [exact H0 | split; [exact H1 | ] ].
  exact (water_plant_above_one_disables 2 20
           (started_with_moisture true 5) (Plant_init 5) eq_refl H0 H1).
Defined.

(** The watering of [water_plant_disables_on_exception_witness] starts with
    no sample and a count of 0. *)
Lemma count_matches_samples_is_invariant_witness :
  let w := started_with_moisture true (2 # 10) in
  let w' := exec (water_plant pump_thread_schedule 2 20) w in
  optimisation_data_collected w = Z.of_nat (List.length (optimisation_data w)) /\
  final_world (water_plant pump_thread_schedule 2 20 w) = Some w' /\
  optimisation_data_collected w' = Z.of_nat (List.length (optimisation_data w')).
Proof.
  assert (Hrun : final_world (water_plant pump_thread_schedule 2 20
                                (started_with_moisture true (2 # 10)))
                 = Some (exec (water_plant pump_thread_schedule 2 20)
                           (started_with_moisture true (2 # 10)))).
  { vm_compute. reflexivity. }
  split; [reflexivity | split; [exact Hrun | ] ].
  exact (count_matches_samples_is_invariant pump_thread_schedule strptime_clock
           2 0 None None 0 0 20 (started_with_moisture true (2 # 10)) _
           eq_refl (or_introl Hrun)).
Defined.

(** Default settings (trigger level 20, danger level 10), moisture 50, at
    noon with heavy rain forecast. *)
Lemma monitor_plant_decide_idle_above_trigger_witness :
  let w := started_with_moisture true 50 in
  (20 / 100) * 100 < soil_moisture_level (Plant_init 50) /\
  final_world (monitor_plant_decide pump_thread_schedule strptime_clock 3 43200
                 sample_sunrise sample_sunset 30 90 w) = Some w.
Proof.
  assert (H : (20 / 100) * 100 < soil_moisture_level (Plant_init 50)).
  { apply Qlt_bool_iff. reflexivity. }
  split; [exact H | ].
  exact (monitor_plant_decide_idle_above_trigger pump_thread_schedule strptime_clock
           3 43200 sample_sunrise sample_sunset 30 90
           (started_with_moisture true 50) (Plant_init 50) eq_refl eq_refl H).
Defined.

(** Moisture 15, below the trigger level, at three in the morning. *)
Lemma monitor_plant_decide_skips_outside_daylight_witness :
  let w := started_with_moisture true 15 in
  10800 < 21600 /\
  monitor_plant_decide pump_thread_schedule strptime_clock 3 10800
    (Some 21600) (Some 64800) 0 0 w = Returns tt w.
Proof.
  assert (H : 10800 < 21600) by reflexivity.
  split; [exact H | ].
  exact (monitor_plant_decide_skips_outside_daylight pump_thread_schedule
           strptime_clock 3 10800 21600 64800 0 0
           (started_with_moisture true 15) (Plant_init 15)
           eq_refl eq_refl eq_refl (or_introl H)).
Defined.

(** Settings with the operating hours switched off by an unknown mode and a
    danger level (30) above the water threshold (20). *)
Definition hours_off_settings : Settings :=
  {| check_rate := 60000;
     operating_settings_desired_moisture_level := 100;
     operating_settings_water_threshold := 20;
     operating_hours_mode := "off";
     operating_hours_start := "06:00";
     operating_hours_end := "18:00";
     weather_detection_enabled := false;
     weather_detection_mode := "AND";
     weather_detection_postpone_percentage := 35;
     weather_detection_postpone_mm := 5;
     danger_mode_enabled := true;
     danger_mode_level := 30;
     danger_mode_bypass_enabled := true;
     danger_mode_bypass_water_percentage := 40;
     desired_soil_moisture := 100;
     water_cycle_length := 5 |}.

(** Moisture 25: in danger (at most 30) and above the trigger level 20; the
    tick does nothing. *)
Lemma monitor_plant_decide_other_mode_has_no_override_witness :
  let w := with_settings hours_off_settings (started_with_moisture true 25) in
  danger_triggered (cfg w) 25 100 = true /\
  (20 / 100) * 100 < soil_moisture_level (Plant_init 25) /\
  monitor_plant_decide pump_thread_schedule strptime_clock 3 43200
    sample_sunrise sample_sunset 0 0 w = Returns tt w.
Proof.
  assert (H : (20 / 100) * 100 < soil_moisture_level (Plant_init 25)).
  { apply Qlt_bool_iff. reflexivity. }
  split; [reflexivity | split; [exact H | ] ].
  refine (proj1 (monitor_plant_decide_other_mode_has_no_override
                   pump_thread_schedule strptime_clock 3 43200
                   sample_sunrise sample_sunset 0 0
                   (with_settings hours_off_settings (started_with_moisture true 25))
                   (Plant_init 25) eq_refl _ _) H); discriminate.
Defined.

(** The started system: a settings row, an empty cache, a service that is
    down. *)
Lemma fetch_and_store_weather_data_failure_witness :
  rainfall_reply (upstream (started true)) = None /\
  fetch_and_store_weather_data (started true) = Returns None (started true).
Proof.
  split; [reflexivity | ].
  exact (fetch_and_store_weather_data_failure (started true)
           (or_intror (or_introl eq_refl))).
Defined.

(** A record cached at 11:30, read at noon, stale at 13:00. *)
Definition cached_at_half_past_eleven : WeatherData :=
  {| mmOfRainfall := 6;
     rainfallProbability := 40;
     sunrise := 21600;
     sunset := 64800;
     createdAt := 41400 |}.

Definition with_cache (r : WeatherData) (w : World) : World :=
  set_db {| settings_system_enabled := settings_system_enabled (db w);
            optimisation_water_per_percent := optimisation_water_per_percent (db w);
            weatherdata := Some r |} w.

Lemma fresh_cache_is_served_witness :
  let w := with_cache cached_at_half_past_eleven (started true) in
  clock w - createdAt cached_at_half_past_eleven <= 3600 /\
  get_precipitation_data w = Returns (PyTuple2 6 40) w /\
  get_sunrise_sunset_times w = Returns (PyTuple2 (Some 21600) (Some 64800)) w.
Proof.
  assert (H : clock (with_cache cached_at_half_past_eleven (started true))
              - createdAt cached_at_half_past_eleven <= 3600).
  { apply Qle_bool_iff. reflexivity. }
  split; [exact H | ].
  exact (fresh_cache_is_served
           (with_cache cached_at_half_past_eleven (started true))
           cached_at_half_past_eleven eq_refl H).
Defined.

Lemma stale_cache_is_not_a_fallback_witness :
  let w := set_clock 46800 (with_cache cached_at_half_past_eleven (started true)) in
  3600 < clock w - createdAt cached_at_half_past_eleven /\
  get_precipitation_data w = Returns PyNone w /\
  get_sunrise_sunset_times w = Returns (PyTuple2 None None) w /\
  weatherdata (db w) = Some cached_at_half_past_eleven.
Proof.
  assert (H : 3600 < clock (set_clock 46800
                              (with_cache cached_at_half_past_eleven (started true)))
                     - createdAt cached_at_half_past_eleven).
  { apply Qlt_bool_iff. reflexivity. }
  split; [exact H | ].
  exact (stale_cache_is_not_a_fallback
           (set_clock 46800 (with_cache cached_at_half_past_eleven (started true)))
           cached_at_half_past_eleven eq_refl H (or_introl eq_refl)).
Defined.

(** A service that answers: 6 mm at 40 percent, sunrise 06:00, sunset
    18:00. *)
Definition service_up : Upstream :=
  {| rainfall_reply := Some (6, 40); sunrisesunset_reply := Some (21600, 64800) |}.

Definition service_up_world : World :=
  mkWorld default_settings true (Some true) false "IDLE"
    (Some (Plant_init 15)) not_postponed [] 0%Z (store true) service_up 43200.

Lemma refresh_then_read_witness :
  weatherdata (db service_up_world) = None /\
  exists w' : World,
    get_precipitation_data service_up_world = Returns (PyTuple2 6 40) w' /\
    weatherdata (db w')
    = Some (refreshed_record service_up_world (6, 40) (21600, 64800)) /\
    get_sunrise_sunset_times w' = Returns (PyTuple2 (Some 21600) (Some 64800)) w'.
Proof.
  split; [reflexivity | ].
  exact (refresh_then_read service_up_world true (6, 40) (21600, 64800)
           eq_refl eq_refl eq_refl eq_refl).
Defined.

(** A new plant at moisture 1, twenty-five depletion ticks. *)
Lemma depletion_stays_in_range_witness :
  0 <= moisture_depletion_rate (Plant_init 1) /\
  0 <= soil_moisture_level (Plant_init 1) /\
  0 <= soil_moisture_level (Nat.iter 25 decrease_soil_moisture_tick (Plant_init 1)) /\
  soil_moisture_level (Nat.iter 25 decrease_soil_moisture_tick (Plant_init 1))
  <= soil_moisture_level (Plant_init 1).
Proof.
  assert (H0 : 0 <= moisture_depletion_rate (Plant_init 1)).
  { apply Qle_bool_iff. reflexivity. }
  assert (H1 : 0 <= soil_moisture_level (Plant_init 1)).
  { apply Qle_bool_iff. reflexivity. }
  split; [exact H0 | split; [exact H1 | ] ].
  exact (depletion_stays_in_range (Plant_init 1) 25 H0 H1).
Defined.

Lemma cancel_stops_the_next_round_witness :
  let p := turn_on (Plant_init (2 # 10)) in
  is_on (pump p) = true /\
  soil_moisture_level (run_pump_round (cancel p)) = soil_moisture_level p /\
  is_on (pump (run_pump_round (cancel p))) = false.
Proof.
  split; [reflexivity | ].
  destruct (cancel_stops_the_next_round (turn_on (Plant_init (2 # 10))) eq_refl)
    as (Hlevel & Hoff & _).
  split; [exact Hlevel | exact Hoff].
Defined.

(** Manual hours 06:00 to 18:00, danger mode off, moisture 5, at noon of
    2 January 1900. *)
Definition manual_settings : Settings :=
  {| check_rate := 60000;
     operating_settings_desired_moisture_level := 100;
     operating_settings_water_threshold := 20;
     operating_hours_mode := "manual";
     operating_hours_start := "06:00";
     operating_hours_end := "18:00";
     weather_detection_enabled := true;
     weather_detection_mode := "AND";
     weather_detection_postpone_percentage := 35;
     weather_detection_postpone_mm := 5;
     danger_mode_enabled := false;
     danger_mode_level := 10;
     danger_mode_bypass_enabled := true;
     danger_mode_bypass_water_percentage := 40;
     desired_soil_moisture := 100;
     water_cycle_length := 5 |}.

Lemma manual_mode_never_opens_witness :
  let w := with_settings manual_settings (started_with_moisture true 5) in
  86400 <= 129600 /\
  monitor_plant_decide pump_thread_schedule strptime_clock 3 129600
    sample_sunrise sample_sunset 0 0 w = Returns tt w.
Proof.
  assert (H : 86400 <= 129600).
  { apply Qle_bool_iff. reflexivity. }
  split; [exact H | ].
  exact (manual_mode_never_opens pump_thread_schedule 3 129600
           sample_sunrise sample_sunset 0 0
           (with_settings manual_settings (started_with_moisture true 5))
           (Plant_init 5) eq_refl eq_refl eq_refl H).
Defined.

(** A day of two entries, both before noon, and a day of two entries after
    noon: 2 to 4 mm at 40 percent and 6 to 10 mm at 60 percent. *)
Definition morning_entries : list RainfallEntry :=
  [ {| dateTime := 21600; startRange := 1; endRange := 5; probability := 90 |};
    {| dateTime := 43200; startRange := 0; endRange := 2; probability := 10 |} ].

Definition afternoon_entries : list RainfallEntry :=
  [ {| dateTime := 50400; startRange := 2; endRange := 4; probability := 40 |};
    {| dateTime := 57600; startRange := 6; endRange := 10; probability := 60 |} ].

Lemma calculate_rainfall_ignores_the_past_witness :
  Forall (Forall (fun entry => dateTime entry <= 43200)) [morning_entries] /\
  calculate_rainfall 43200 [morning_entries] = (0, 0) /\
  calculate_rainfall 43200 ([morning_entries] ++ [afternoon_entries])
  = calculate_rainfall 43200 [afternoon_entries].
Proof.
  assert (H : Forall (Forall (fun entry => dateTime entry <= 43200)) [morning_entries]).
  { repeat constructor; apply Qle_bool_iff; reflexivity. }
  split; [exact H | ].
  destruct (calculate_rainfall_ignores_the_past 43200 [morning_entries]
              [afternoon_entries] H) as (Hzero & Hbefore & _).
  split; [exact Hzero | exact Hbefore].
Defined.

Lemma calculate_rainfall_never_negative_witness :
  let result := calculate_rainfall 43200 [morning_entries; afternoon_entries] in
  fst result == 11 # 2 /\ snd result == 50 /\
  0 <= fst result /\ 0 <= snd result.
Proof.
  split; [reflexivity | split; [reflexivity | ] ].
  refine (calculate_rainfall_never_negative 43200
            [morning_entries; afternoon_entries] _).
  repeat constructor; apply Qle_bool_iff; reflexivity.
Defined.

(** * The tick as written

    [monitor_plant] unpacks the coroutine objects of lines 235 and 236
    without awaiting them, so every tick ends in [TypeError] before line 238.
    The statements below are about [monitor_plant] and [run_loop]
    themselves. *)

(** C1, at the failing input.  Default settings (auto mode, danger mode and
    danger bypass enabled, danger level 10 percent of 100), moisture 5: the
    conditions of the danger override hold.  The tick raises [TypeError] and
    leaves the world as it was, the moisture still at 5 and the pump off; the
    monitor loop ends with that exception at its first tick.  No watering to
    the bypass percentage 40 takes place.  (Were [water_plant] called with
    target 40 under the pump schedule, it would leave the moisture at 1 and
    the system disabled.) *)
Theorem danger_tick_raises_before_the_override
    (elapse : Q -> Plant -> Plant) (strptime_HM : string -> option Q) (fuel : nat) :
  let w := started_with_moisture true 5 in
  let c := cfg w in
  (operating_hours_mode c = "auto"%string /\
   danger_mode_enabled c = true /\
   danger_mode_bypass_enabled c = true /\
   danger_mode_bypass_water_percentage c = 40 /\
   plant w = Some (Plant_init 5) /\
   5 <= (danger_mode_level c / 100) * operating_settings_desired_moisture_level c) /\
  monitor_plant elapse strptime_HM fuel w = Raises TypeError w /\
  run_loop elapse strptime_HM (S fuel) w = Raises TypeError w /\
  (exists w' : World,
     water_plant pump_thread_schedule (S fuel) 40 w = Returns tt w' /\
     option_map soil_moisture_level (plant w') = Some 1 /\
     status w' = "DISABLED"%string).
Proof.
  cbv zeta.
  split; [ | split; [reflexivity | split] ].
  - repeat split. apply Qle_bool_iff. reflexivity.
  - vm_compute. reflexivity.
  - rewrite (water_plant_outcome pump_thread_schedule fuel 40).
    eexists. split; [reflexivity | ].
    vm_compute. split; reflexivity.
Qed.

(** A world in which the weather getters would serve the forecast of the
    example: 6 mm at 40 percent, cached half an hour ago; AND mode with
    thresholds 5 mm and 35 percent; moisture 15, between the danger level 10
    and the trigger level 20; noon, between sunrise and sunset. *)
Definition rain_forecast_world : World :=
  with_cache cached_at_half_past_eleven (started_with_moisture true 15).

(** C3, at the failing input.  Weather detection is enabled in AND mode, the
    moisture 15 is at or below the trigger level 20 and above the danger
    level, and the forecast the getters would return (6 mm, 40 percent) meets
    both thresholds (5 mm, 35 percent), inside the hours of auto mode.  The
    tick raises [TypeError] and leaves the world as it was: the postponement
    record is still the one of [__init__], not postponed; the monitor loop
    ends with that exception at its first tick. *)
Theorem rain_tick_raises_before_the_postponement
    (elapse : Q -> Plant -> Plant) (strptime_HM : string -> option Q) (fuel : nat) :
  let w := rain_forecast_world in
  let c := cfg w in
  (weather_detection_enabled c = true /\
   weather_detection_mode c = "AND"%string /\
   plant w = Some (Plant_init 15) /\
   15 <= (operating_settings_water_threshold c / 100)
         * operating_settings_desired_moisture_level c /\
   danger_triggered c 15 (operating_settings_desired_moisture_level c) = false /\
   get_precipitation_data w = Returns (PyTuple2 6 40) w /\
   weather_detection_postpone_mm c <= 6 /\
   weather_detection_postpone_percentage c <= 40 /\
   get_sunrise_sunset_times w = Returns (PyTuple2 (Some 21600) (Some 64800)) w /\
   21600 <= clock w /\ clock w <= 64800) /\
  monitor_plant elapse strptime_HM fuel w = Raises TypeError w /\
  run_loop elapse strptime_HM (S fuel) w = Raises TypeError w /\
  postponedWater w = not_postponed /\
  (forall w' : World,
     final_world (monitor_plant elapse strptime_HM fuel w) = Some w' ->
     postponed (postponedWater w') = false).
Proof.
  cbv zeta.
  split; [ | split; [reflexivity | split; [ | split ] ] ].
  - repeat split; try (apply Qle_bool_iff; reflexivity); vm_compute; reflexivity.
  - vm_compute. reflexivity.
  - reflexivity.
  - intros w' H. inversion H. reflexivity.
Qed.

(** ** What the program as written can do to the world *)










